(** * PIN-gated credential vault: the store, the PIN hasher, the key
      validator and the login card of [src/utils/auth.py],
      [src/auth_gate.py] and [src/ui/components.py].

    The Python code is embedded shallowly.  A Python [str] is a Rocq
    [string] holding its UTF-8 encoding, [bytes] is a [list byte], a
    [dict] with string keys is a [gmap string json], and a function that
    reads or writes the store file, draws randomness or talks to the
    network is a function from a [world] to an outcome and a new
    [world]. *)

From Stdlib Require Import ZArith NArith List String Ascii Floats Lia.
From Stdlib Require Import DecimalString.
From Stdlib.Strings Require Byte.
From stdpp Require Import gmap strings list fin_maps.

Set Warnings "-register-all".
Local Open Scope string_scope.

Abbreviation byte := Init.Byte.byte.

(* ===================================================================== *)
(** * Part I: definitions                                                 *)
(* ===================================================================== *)

(** ** Exceptions and outcomes *)

(** The exception classes the code can meet.  [HTTPError] is the one
    [Response.raise_for_status] raises; it carries the text of the
    response it was raised for.  [RequestException] stands for the other
    classes of [requests.exceptions] (connection errors, timeouts, ...). *)
Inductive exn : Type :=
| FileNotFoundError (msg : string)
| OSError (msg : string)
| JSONDecodeError (msg : string)
| AttributeError (msg : string)
| TypeError (msg : string)
| ValueError (msg : string)
| OverflowError (msg : string)
| BinasciiError (msg : string)
| HTTPError (msg : string) (response_text : option string)
| RequestException (msg : string).

(** [str(e)]. *)
Definition exn_str (e : exn) : string :=
  match e with
  | FileNotFoundError m | OSError m | JSONDecodeError m | AttributeError m
  | TypeError m | ValueError m | OverflowError m | BinasciiError m
  | HTTPError m _ | RequestException m => m
  end.

(** [isinstance(e, FileNotFoundError)], [isinstance(e, requests.HTTPError)]
    and [isinstance(e, requests.RequestException)]; [HTTPError] is a
    subclass of [RequestException]. *)
Definition is_FileNotFoundError (e : exn) : bool :=
  match e with FileNotFoundError _ => true | _ => false end.

Definition is_HTTPError (e : exn) : bool :=
  match e with HTTPError _ _ => true | _ => false end.

Definition is_RequestException (e : exn) : bool :=
  match e with HTTPError _ _ | RequestException _ => true | _ => false end.

(** The outcome of a call: a value, or a raised exception. *)
Inductive result (A : Type) : Type :=
| Ok (a : A)
| Raise (e : exn).
Arguments Ok {A} a.
Arguments Raise {A} e.

Definition rbind {A B} (r : result A) (k : A -> result B) : result B :=
  match r with
  | Ok a => k a
  | Raise e => Raise e
  end.

(** ** Bytes, SHA-256, HMAC, PBKDF2 and base64 ([hashlib], [base64]) *)

Module Bytes.
Local Open Scope N_scope.

(** The byte with value [n mod 256]. *)
Definition byte_of_N (n : N) : byte :=
  match Byte.of_N (n mod 256) with Some b => b | None => Byte.x00 end.

Definition of_string (s : string) : list byte := list_byte_of_string s.
Definition to_string (bs : list byte) : string := string_of_list_byte bs.

Definition xor_byte (a b : byte) : byte :=
  byte_of_N (N.lxor (Byte.to_N a) (Byte.to_N b)).

Fixpoint xor_bytes (xs ys : list byte) : list byte :=
  match xs, ys with
  | x :: xs', y :: ys' => xor_byte x y :: xor_bytes xs' ys'
  | _, _ => []
  end.

(** The four bytes of a 32-bit word and the eight of a 64-bit one, most
    significant first. *)
Definition be32 (w : N) : list byte :=
  [byte_of_N (N.shiftr w 24); byte_of_N (N.shiftr w 16);
   byte_of_N (N.shiftr w 8); byte_of_N w].

Definition be64 (w : N) : list byte :=
  be32 (N.shiftr w 32) ++ be32 w.

End Bytes.

Module Sha256.
Local Open Scope N_scope.

Definition mask32 (x : N) : N := N.land x 4294967295.
Definition add32 (a b : N) : N := mask32 (a + b).
Definition rotr (n x : N) : N :=
  mask32 (N.lor (N.shiftr x n) (N.shiftl x (32 - n))).
Definition not32 (x : N) : N := N.lxor x 4294967295.

Definition Ch (x y z : N) : N := N.lxor (N.land x y) (N.land (not32 x) z).
Definition Maj (x y z : N) : N :=
  N.lxor (N.lxor (N.land x y) (N.land x z)) (N.land y z).
Definition Sigma0 (x : N) : N := N.lxor (N.lxor (rotr 2 x) (rotr 13 x)) (rotr 22 x).
Definition Sigma1 (x : N) : N := N.lxor (N.lxor (rotr 6 x) (rotr 11 x)) (rotr 25 x).
Definition sigma0 (x : N) : N := N.lxor (N.lxor (rotr 7 x) (rotr 18 x)) (N.shiftr x 3).
Definition sigma1 (x : N) : N := N.lxor (N.lxor (rotr 17 x) (rotr 19 x)) (N.shiftr x 10).

(** The first 64 primes. *)
Definition is_prime (n : nat) : bool :=
  forallb (fun d => negb (n mod d =? 0)%nat) (seq 2 (n - 2)).

Definition primes : list N :=
  Eval vm_compute in map N.of_nat (filter is_prime (seq 2 310)).

(** The integer cube root of [x], found bit by bit from bit [n] down. *)
Fixpoint cbrt_bits (n : nat) (x r : N) : N :=
  match n with
  | O => r
  | S n' =>
      let r' := r + N.shiftl 1 (N.of_nat n') in
      cbrt_bits n' x (if r' * r' * r' <=? x then r' else r)
  end.

(** The round constants: the first 32 bits of the fractional parts of
    the cube roots of the first 64 primes. *)
Definition K : list N :=
  Eval vm_compute in
    map (fun p => mask32 (cbrt_bits 36 (N.shiftl p 96) 0)) primes.

(** The eight working variables, and the chaining value. *)
Record state : Type := St { sa : N; sb : N; sc : N; sd : N; se : N; sf : N; sg : N; sh : N }.

(** The initial chaining value: the first 32 bits of the fractional
    parts of the square roots of the first 8 primes. *)
Definition frac_sqrt (p : N) : N := mask32 (N.sqrt (N.shiftl p 64)).

Definition H0 : state :=
  Eval vm_compute in
    St (frac_sqrt 2) (frac_sqrt 3) (frac_sqrt 5) (frac_sqrt 7)
       (frac_sqrt 11) (frac_sqrt 13) (frac_sqrt 17) (frac_sqrt 19).

(** Big-endian words of a block of bytes. *)
Fixpoint words (bs : list byte) : list N :=
  match bs with
  | b0 :: b1 :: b2 :: b3 :: rest =>
      (N.shiftl (Byte.to_N b0) 24 + N.shiftl (Byte.to_N b1) 16
       + N.shiftl (Byte.to_N b2) 8 + Byte.to_N b3) :: words rest
  | _ => []
  end.

(** The message schedule: [n] more words after the ones in [w], which is
    kept newest first. *)
Fixpoint schedule (n : nat) (w : list N) : list N :=
  match n with
  | O => w
  | S n' =>
      let x := add32 (add32 (sigma1 (nth 1 w 0)) (nth 6 w 0))
                     (add32 (sigma0 (nth 14 w 0)) (nth 15 w 0)) in
      schedule n' (x :: w)
  end.

Definition round (s : state) (kw : N * N) : state :=
  let t1 := add32 (add32 (add32 (add32 (sh s) (Sigma1 (se s))) (Ch (se s) (sf s) (sg s)))
                         (fst kw)) (snd kw) in
  let t2 := add32 (Sigma0 (sa s)) (Maj (sa s) (sb s) (sc s)) in
  St (add32 t1 t2) (sa s) (sb s) (sc s) (add32 (sd s) t1) (se s) (sf s) (sg s).

Definition compress (h : state) (block : list byte) : state :=
  let w := rev (schedule 48 (rev (words block))) in
  let s := fold_left round (combine K w) h in
  St (add32 (sa h) (sa s)) (add32 (sb h) (sb s)) (add32 (sc h) (sc s)) (add32 (sd h) (sd s))
     (add32 (se h) (se s)) (add32 (sf h) (sf s)) (add32 (sg h) (sg s)) (add32 (sh h) (sh s)).

(** The message followed by the bit 1, zeros up to 56 modulo 64 bytes,
    and its length in bits on 8 bytes. *)
Definition pad (msg : list byte) : list byte :=
  let n := length msg in
  let zeros := ((119 - n mod 64) mod 64)%nat in
  msg ++ Byte.x80 :: repeat Byte.x00 zeros ++ Bytes.be64 (8 * N.of_nat n).

(** The chaining value after [n] blocks of [bs]. *)
Fixpoint blocks (n : nat) (bs : list byte) (h : state) : state :=
  match n with
  | O => h
  | S n' => blocks n' (skipn 64 bs) (compress h (firstn 64 bs))
  end.

Definition digest_of (h : state) : list byte :=
  Bytes.be32 (sa h) ++ Bytes.be32 (sb h) ++ Bytes.be32 (sc h) ++ Bytes.be32 (sd h) ++
  Bytes.be32 (se h) ++ Bytes.be32 (sf h) ++ Bytes.be32 (sg h) ++ Bytes.be32 (sh h).

Definition sha256 (msg : list byte) : list byte :=
  let p := pad msg in
  digest_of (blocks (length p / 64) p H0).

End Sha256.


Module Hmac.

(** HMAC-SHA256 (RFC 2104): a key longer than the block of 64 bytes
    is hashed first, a shorter one is padded with zeros. *)
Definition block_key (key : list byte) : list byte :=
  let k := if Nat.ltb 64 (length key) then Sha256.sha256 key else key in
  k ++ repeat Byte.x00 (64 - length k).

Definition hmac_sha256 (key msg : list byte) : list byte :=
  let k := block_key key in
  let ipad := map (Bytes.xor_byte Byte.x36) k in
  let opad := map (Bytes.xor_byte Byte.x5c) k in
  Sha256.sha256 (opad ++ Sha256.sha256 (ipad ++ msg)).

(** One step of PBKDF2's inner loop: the pair (U_i, U_1 xor ... xor U_i). *)
Definition pbkdf2_step (password : list byte) (st : list byte * list byte)
  : list byte * list byte :=
  let u := hmac_sha256 password (fst st) in
  (u, Bytes.xor_bytes (snd st) u).

(** [hashlib.pbkdf2_hmac("sha256", password, salt, iterations)]: with
    the default [dklen], the digest size, the derived key is the first
    block T_1 alone.  [iterations] is at least 1. *)
Definition pbkdf2_hmac_sha256 (password salt : list byte) (iterations : N)
  : list byte :=
  let u1 := hmac_sha256 password (salt ++ Bytes.be32 1) in
  snd (N.iter (iterations - 1) (pbkdf2_step password) (u1, u1)).

End Hmac.

Module Base64.
Local Open Scope N_scope.

Definition alphabet : string :=
  "ABCDEFGHIJKLMNOPQRSTUVWXYZabcdefghijklmnopqrstuvwxyz0123456789+/".

(** [table_b2a_base64[n]]. *)
Definition b2a (n : N) : ascii :=
  match String.get (N.to_nat n) alphabet with
  | Some c => c
  | None => "="%char
  end.

(** [table_a2b_base64[c]], [None] for a character outside the alphabet. *)
Definition a2b (c : ascii) : option N :=
  let n := N_of_ascii c in
  if (65 <=? n) && (n <=? 90) then Some (n - 65)
  else if (97 <=? n) && (n <=? 122) then Some (n - 71)
  else if (48 <=? n) && (n <=? 57) then Some (n + 4)
  else if n =? 43 then Some 62
  else if n =? 47 then Some 63
  else None.

(** [binascii.b2a_base64(bs, newline=False)]. *)
Fixpoint b2a_base64 (bs : list byte) : string :=
  match bs with
  | [] => ""
  | [x] =>
      let a := Byte.to_N x in
      String (b2a (N.shiftr a 2))
        (String (b2a (N.shiftl (N.land a 3) 4)) "==")
  | [x; y] =>
      let a := Byte.to_N x in
      let b := Byte.to_N y in
      String (b2a (N.shiftr a 2))
        (String (b2a (N.lor (N.shiftl (N.land a 3) 4) (N.shiftr b 4)))
           (String (b2a (N.shiftl (N.land b 15) 2)) "="))
  | x :: y :: z :: rest =>
      let a := Byte.to_N x in
      let b := Byte.to_N y in
      let c := Byte.to_N z in
      String (b2a (N.shiftr a 2))
        (String (b2a (N.lor (N.shiftl (N.land a 3) 4) (N.shiftr b 4)))
           (String (b2a (N.lor (N.shiftl (N.land b 15) 2) (N.shiftr c 6)))
              (String (b2a (N.land c 63)) (b2a_base64 rest))))
  end.

(** The loop of [binascii.a2b_base64] in its default, lenient mode:
    [quad_pos] counts the alphabet characters of the current group of
    four, [leftchar] holds the bits not yet written, [pads] the padding
    characters seen in a row; characters outside the alphabet are
    skipped. *)
Fixpoint a2b_loop (s : string) (quad_pos leftchar pads : N) (out : list byte)
  : result (list byte) :=
  match s with
  | EmptyString =>
      if quad_pos =? 0 then Ok out
      else if quad_pos =? 1 then
        Raise (BinasciiError "Invalid base64-encoded string: number of data characters cannot be 1 more than a multiple of 4")
      else Raise (BinasciiError "Incorrect padding")
  | String c s' =>
      if Ascii.eqb c "="%char then
        if 2 <=? quad_pos then
          if 4 <=? quad_pos + (pads + 1) then Ok out
          else a2b_loop s' quad_pos leftchar (pads + 1) out
        else a2b_loop s' quad_pos leftchar pads out
      else
        match a2b c with
        | None => a2b_loop s' quad_pos leftchar pads out
        | Some v =>
            if quad_pos =? 0 then a2b_loop s' 1 v 0 out
            else if quad_pos =? 1 then
              a2b_loop s' 2 (N.land v 15) 0
                (out ++ [Bytes.byte_of_N (N.lor (N.shiftl leftchar 2) (N.shiftr v 4))])
            else if quad_pos =? 2 then
              a2b_loop s' 3 (N.land v 3) 0
                (out ++ [Bytes.byte_of_N (N.lor (N.shiftl leftchar 4) (N.shiftr v 2))])
            else
              a2b_loop s' 0 0 0
                (out ++ [Bytes.byte_of_N (N.lor (N.shiftl leftchar 6) v)])
        end
  end.

Definition a2b_base64 (s : string) : result (list byte) := a2b_loop s 0 0 0 [].

(** Whether [s.encode("ascii")] succeeds. *)
Fixpoint is_ascii (s : string) : bool :=
  match s with
  | EmptyString => true
  | String c s' => (N_of_ascii c <? 128) && is_ascii s'
  end.

(** [base64.b64encode(bs).decode("utf-8")] and [base64.b64decode(s)] for
    a [str] argument. *)
Definition b64encode (bs : list byte) : string := b2a_base64 bs.

Definition b64decode (s : string) : result (list byte) :=
  if is_ascii s then a2b_base64 s
  else Raise (ValueError "string argument should contain only ASCII characters").

End Base64.

(** ** Operations of [str] *)

Module PyStr.
Local Open Scope N_scope.

(** The characters of a string: each code point with the bytes that
    encode it.  A byte that starts no well-formed sequence stands for
    itself. *)
Fixpoint chars (s : string) : list (N * string) :=
  match s with
  | EmptyString => []
  | String c0 s0 =>
      let b0 := N_of_ascii c0 in
      let single := (b0, String c0 EmptyString) :: chars s0 in
      if b0 <? 0xC0 then single
      else if b0 <? 0xE0 then
        match s0 with
        | String c1 s1 =>
            (N.lor (N.shiftl (N.land b0 0x1F) 6) (N.land (N_of_ascii c1) 0x3F),
             String c0 (String c1 EmptyString)) :: chars s1
        | _ => single
        end
      else if b0 <? 0xF0 then
        match s0 with
        | String c1 (String c2 s2) =>
            (N.lor (N.shiftl (N.land b0 0x0F) 12)
               (N.lor (N.shiftl (N.land (N_of_ascii c1) 0x3F) 6)
                  (N.land (N_of_ascii c2) 0x3F)),
             String c0 (String c1 (String c2 EmptyString))) :: chars s2
        | _ => single
        end
      else
        match s0 with
        | String c1 (String c2 (String c3 s3)) =>
            (N.lor (N.shiftl (N.land b0 0x07) 18)
               (N.lor (N.shiftl (N.land (N_of_ascii c1) 0x3F) 12)
                  (N.lor (N.shiftl (N.land (N_of_ascii c2) 0x3F) 6)
                     (N.land (N_of_ascii c3) 0x3F))),
             String c0 (String c1 (String c2 (String c3 EmptyString)))) :: chars s3
        | _ => single
        end
  end.

Definition in_ranges (table : list (N * N)) (cp : N) : bool :=
  existsb (fun r => (fst r <=? cp) && (cp <=? snd r)) table.

(** The code points for which [str.isspace] holds (Unicode 14). *)
Definition space_ranges : list (N * N) :=
  [(0x9, 0xD); (0x1C, 0x20); (0x85, 0x85); (0xA0, 0xA0); (0x1680, 0x1680);
   (0x2000, 0x200A); (0x2028, 0x2029); (0x202F, 0x202F); (0x205F, 0x205F);
   (0x3000, 0x3000)].

(** The code points for which [str.isdigit] holds: the characters whose
    Unicode numeric type is Decimal or Digit (Unicode 14). *)
Definition digit_ranges : list (N * N) :=
  [(0x30, 0x39); (0xB2, 0xB3); (0xB9, 0xB9); (0x660, 0x669);
   (0x6F0, 0x6F9); (0x7C0, 0x7C9); (0x966, 0x96F); (0x9E6, 0x9EF);
   (0xA66, 0xA6F); (0xAE6, 0xAEF); (0xB66, 0xB6F); (0xBE6, 0xBEF);
   (0xC66, 0xC6F); (0xCE6, 0xCEF); (0xD66, 0xD6F); (0xDE6, 0xDEF);
   (0xE50, 0xE59); (0xED0, 0xED9); (0xF20, 0xF29); (0x1040, 0x1049);
   (0x1090, 0x1099); (0x1369, 0x1371); (0x17E0, 0x17E9); (0x1810, 0x1819);
   (0x1946, 0x194F); (0x19D0, 0x19DA); (0x1A80, 0x1A89); (0x1A90, 0x1A99);
   (0x1B50, 0x1B59); (0x1BB0, 0x1BB9); (0x1C40, 0x1C49); (0x1C50, 0x1C59);
   (0x2070, 0x2070); (0x2074, 0x2079); (0x2080, 0x2089); (0x2460, 0x2468);
   (0x2474, 0x247C); (0x2488, 0x2490); (0x24EA, 0x24EA); (0x24F5, 0x24FD);
   (0x24FF, 0x24FF); (0x2776, 0x277E); (0x2780, 0x2788); (0x278A, 0x2792);
   (0xA620, 0xA629); (0xA8D0, 0xA8D9); (0xA900, 0xA909); (0xA9D0, 0xA9D9);
   (0xA9F0, 0xA9F9); (0xAA50, 0xAA59); (0xABF0, 0xABF9); (0xFF10, 0xFF19);
   (0x104A0, 0x104A9); (0x10A40, 0x10A43); (0x10D30, 0x10D39);
   (0x10E60, 0x10E68); (0x11052, 0x1105A); (0x11066, 0x1106F);
   (0x110F0, 0x110F9); (0x11136, 0x1113F); (0x111D0, 0x111D9);
   (0x112F0, 0x112F9); (0x11450, 0x11459); (0x114D0, 0x114D9);
   (0x11650, 0x11659); (0x116C0, 0x116C9); (0x11730, 0x11739);
   (0x118E0, 0x118E9); (0x11950, 0x11959); (0x11C50, 0x11C59);
   (0x11D50, 0x11D59); (0x11DA0, 0x11DA9); (0x16A60, 0x16A69);
   (0x16AC0, 0x16AC9); (0x16B50, 0x16B59); (0x1D7CE, 0x1D7FF);
   (0x1E140, 0x1E149); (0x1E2F0, 0x1E2F9); (0x1E950, 0x1E959);
   (0x1F100, 0x1F10A); (0x1FBF0, 0x1FBF9)].

Definition is_space (cp : N) : bool := in_ranges space_ranges cp.
Definition is_digit (cp : N) : bool := in_ranges digit_ranges cp.

(** [len(s)]: the number of code points. *)
Definition len (s : string) : nat := length (chars s).

(** [s.isdigit()]: at least one character, and all of them digits. *)
Definition isdigit (s : string) : bool :=
  match chars s with
  | [] => false
  | cs => forallb (fun c => is_digit (fst c)) cs
  end.

Fixpoint lstrip_chars (cs : list (N * string)) : list (N * string) :=
  match cs with
  | c :: cs' => if is_space (fst c) then lstrip_chars cs' else cs
  | [] => []
  end.

Definition join (cs : list (N * string)) : string :=
  fold_right (fun c acc => String.append (snd c) acc) EmptyString cs.

(** [s.strip()]. *)
Definition strip (s : string) : string :=
  join (rev (lstrip_chars (rev (lstrip_chars (chars s))))).

(** [str(n)] for a natural number, and [f"{n:04d}"]. *)
Definition str_of_N (n : N) : string := NilZero.string_of_uint (N.to_uint n).

Definition format_04d (n : N) : string :=
  let s := str_of_N n in
  String.append (string_of_list_ascii (repeat "0"%char (4 - String.length s))) s.

(** The line feed. *)
Definition LF : string := String (ascii_of_N 10) EmptyString.

End PyStr.

(** ** Python values *)

(** What [json.load] can return, which is also what the store's dict
    holds.  [JNull] is Python's [None]. *)
Inductive json : Type :=
| JNull
| JBool (b : bool)
| JInt (z : Z)
| JFloat (f : float)
| JStr (s : string)
| JArr (l : list json)
| JObj (m : gmap string json).

(** Truth value of an object, as [if], [not], [and] and [or] test it. *)
Definition truthy (v : json) : bool :=
  match v with
  | JNull => false
  | JBool b => b
  | JInt z => negb (z =? 0)%Z
  | JFloat f => negb (PrimFloat.eqb f 0%float)
  | JStr s => negb (String.eqb s "")
  | JArr l => match l with [] => false | _ => true end
  | JObj m => negb (bool_decide (m = ∅))
  end.

(** [type(v).__name__]. *)
Definition type_name (v : json) : string :=
  match v with
  | JNull => "NoneType"
  | JBool _ => "bool"
  | JInt _ => "int"
  | JFloat _ => "float"
  | JStr _ => "str"
  | JArr _ => "list"
  | JObj _ => "dict"
  end.

(** The error of calling a method the object does not have. *)
Definition no_attribute (v : json) (name : string) : exn :=
  AttributeError ("'" +:+ type_name v +:+ "' object has no attribute '" +:+ name +:+ "'").

(** [a and b]: the first operand when it is false, else the second. *)
Definition py_and (a b : json) : json := if truthy a then b else a.

(** [s or t] on strings, and [v or ""] for a control's value, which is
    a string or [None]. *)
Definition str_or (s t : string) : string :=
  if String.eqb s "" then t else s.

Definition or_empty (v : option string) : string :=
  match v with
  | Some s => s
  | None => ""
  end.

(** [s == x] for a string [s] and an arbitrary object [x]. *)
Definition py_eq_str (s : string) (x : json) : bool :=
  match x with
  | JStr t => String.eqb s t
  | _ => false
  end.

(** [d.get(k, default)] and [d.get(k)] on an arbitrary object [d]: only
    a dict has the method. *)
Definition py_get_default (d : json) (k : string) (dflt : json) : result json :=
  match d with
  | JObj m => Ok (default dflt (m !! k))
  | _ => Raise (no_attribute d "get")
  end.

Definition py_get (d : json) (k : string) : result json :=
  py_get_default d k JNull.

(** [d.update({k1: v1, ...})], the pairs taken in order. *)
Definition py_update (d : json) (kvs : list (string * json)) : result json :=
  match d with
  | JObj m => Ok (JObj (fold_left (fun acc kv => <[fst kv := snd kv]> acc) kvs m))
  | _ => Raise (no_attribute d "update")
  end.


(** [base64.b64decode(x)]: a [str] is decoded, any other JSON value is
    no bytes-like object. *)
Definition py_b64decode (x : json) : result (list byte) :=
  match x with
  | JStr s => Base64.b64decode s
  | _ => Raise (TypeError ("argument should be a bytes-like object or ASCII string, not '"
                        +:+ type_name x +:+ "'"))
  end.

(** ** The world outside the process *)

(** The store file, [app_db.json] in the application-data directory, by
    what opening and decoding it does. *)
Inductive file_state : Type :=
| Missing                      (* open raises FileNotFoundError *)
| Unreadable (msg : string)    (* open or read raises another OSError *)
| Malformed (msg : string)     (* json.load raises JSONDecodeError *)
| Holds (v : json).            (* json.load returns v *)

Inductive store_access : Type := OpenedForRead | OpenedForWrite.

(** An HTTP response as [requests] presents it: [r.status_code],
    [r.text] and what [r.json()] does. *)
Record response : Type := {
  status_code : Z;
  text : string;
  json_body : result json
}.

(** The world: the store file with the accesses made to it so far, the
    operating system's entropy source (the [i]-th draw yields
    [entropy i]), and the remote service, by what [requests.get] on the
    credits endpoint does for a given bearer key. *)
Record world : Type := {
  file : file_state;
  accesses : list store_access;
  entropy : nat -> N;
  drawn : nat;
  net : string -> result response
}.

Definition set_file (f : file_state) (a : store_access) (w : world) : world :=
  {| file := f; accesses := accesses w ++ [a]; entropy := entropy w;
     drawn := drawn w; net := net w |}.

Definition advance (n : nat) (w : world) : world :=
  {| file := file w; accesses := accesses w; entropy := entropy w;
     drawn := drawn w + n; net := net w |}.

(** ** Computations over a state *)

Definition M (S A : Type) : Type := S -> result A * S.

Definition ret {S A} (a : A) : M S A := fun s => (Ok a, s).

Definition bind {S A B} (m : M S A) (k : A -> M S B) : M S B :=
  fun s =>
    match m s with
    | (Ok a, s') => k a s'
    | (Raise e, s') => (Raise e, s')
    end.

(** A pure call that may raise. *)
Definition lift {S A} (r : result A) : M S A := fun s => (r, s).

(** [try: m  except ...: h e]: the handler answers the exceptions the
    clauses catch, [None] for one that passes through. *)
Definition try_except {S A} (m : M S A) (h : exn -> option (M S A)) : M S A :=
  fun s =>
    match m s with
    | (Ok a, s') => (Ok a, s')
    | (Raise e, s') =>
        match h e with
        | Some k => k s'
        | None => (Raise e, s')
        end
    end.

Notation "x <- c1 ;; c2" := (bind c1 (fun x => c2))
  (at level 100, c1 at next level, right associativity).
Notation "c1 ;; c2" := (bind c1 (fun _ => c2))
  (at level 100, right associativity).

(** ** Randomness ([secrets]) *)

Module Secrets.

(** [secrets.token_bytes(n)]: the next [n] draws, a byte each. *)
Definition token_bytes (n : nat) : M world (list byte) :=
  fun w =>
    (Ok (map (fun i => Bytes.byte_of_N (entropy w (drawn w + i))) (seq 0 n)),
     advance n w).

(** [secrets.randbelow(n)]: the next draw reduced below [n]. *)
Definition randbelow (n : N) : M world N :=
  fun w =>
    if (n =? 0)%N then (Raise (ValueError "Upper bound must be positive"), w)
    else (Ok (entropy w (drawn w) mod n)%N, advance 1 w).

End Secrets.

(** ** The credential store and the PIN hasher ([src/utils/auth.py],
       repeated in [src/auth_gate.py]) *)

Module Auth.

(** [open(_db_path(), "r")] followed by [json.load(f)]. *)
Definition open_and_load : M world json :=
  fun w =>
    let w' := set_file (file w) OpenedForRead w in
    match file w with
    | Missing => (Raise (FileNotFoundError "No such file or directory"), w')
    | Unreadable msg => (Raise (OSError msg), w')
    | Malformed msg => (Raise (JSONDecodeError msg), w')
    | Holds v => (Ok v, w')
    end.

Definition _load_db : M world json :=
  try_except open_and_load
    (fun e =>
       if is_FileNotFoundError e then Some (ret (JObj ∅))
       else Some (ret (JObj ∅))).

(** [open(_db_path(), "w")] followed by [json.dump(d, f, ...)]: the file
    then decodes to [d].  The write is taken to succeed: the
    application-data directory can be created and written. *)
Definition _save_db (d : json) : M world unit :=
  fun w => (Ok tt, set_file (Holds d) OpenedForWrite w).

Definition get_credentials : M world (json * json * json) :=
  d <- _load_db ;;
  api_key <- lift (py_get d "api_key") ;;
  pin_hash <- lift (py_get d "pin_hash") ;;
  pin_salt <- lift (py_get d "pin_salt") ;;
  ret (api_key, pin_hash, pin_salt).

Definition _hash_pin (pin : string) (salt_b64 : json) : result string :=
  rbind (py_b64decode salt_b64) (fun salt =>
  let dk := Hmac.pbkdf2_hmac_sha256 (Bytes.of_string pin) salt 100000 in
  Ok (Base64.b64encode dk)).

Definition verify_pin (pin : string) : M world bool :=
  creds <- get_credentials ;;
  let '(_, pin_hash, pin_salt) := creds in
  if negb (truthy (py_and pin_hash pin_salt)) then ret false
  else
    h <- lift (_hash_pin pin pin_salt) ;;
    ret (py_eq_str h pin_hash).

Definition save_credentials (api_key pin : string) : M world unit :=
  raw <- Secrets.token_bytes 16 ;;
  let salt_b64 := Base64.b64encode raw in
  pin_hash <- lift (_hash_pin pin (JStr salt_b64)) ;;
  d <- _load_db ;;
  d' <- lift (py_update d [("api_key", JStr api_key);
                           ("pin_hash", JStr pin_hash);
                           ("pin_salt", JStr salt_b64)]) ;;
  _save_db d'.


Definition clear_credentials : M world unit := _save_db (JObj ∅).

End Auth.

(** ** Key validation and the login card ([src/auth_gate.py]; the card
       is repeated as the class [LoginCard] of [src/ui/components.py]) *)

Module AuthGate.

(** [float(z)] for an [int]: the nearest double, ties to even. *)
Definition float_of_Z (z : Z) : result float :=
  match SpecFloat.binary_normalize FloatOps.prec FloatOps.emax z 0 false with
  | SpecFloat.S754_infinity _ => Raise (OverflowError "int too large to convert to float")
  | sf => Ok (FloatOps.SF2Prim sf)
  end.

(** [requests.get(f"{OPENROUTER_BASE}/credits",
                  headers={"Authorization": f"Bearer {api_key}"}, timeout=15)]. *)
Definition requests_get (api_key : string) : M world response :=
  fun w => (net w api_key, w).

(** [r.raise_for_status()]: an [HTTPError] carrying the response for a
    status from 400 to 599. *)
Definition raise_for_status (r : response) : result unit :=
  if (400 <=? status_code r)%Z && (status_code r <? 500)%Z
  then Raise (HTTPError "Client Error" (Some (text r)))
  else if (500 <=? status_code r)%Z && (status_code r <? 600)%Z
  then Raise (HTTPError "Server Error" (Some (text r)))
  else Ok tt.

(** [getattr(e.response, 'text', str(e))]. *)
Definition response_text_or_str (e : exn) : string :=
  match e with
  | HTTPError _ (Some t) => t
  | _ => exn_str e
  end.

(** The messages [check_api_key_balance] answers with, by the kind of
    error they stand for. *)
Definition msg_invalid_key : string := "Неверный ключ OpenRouter".
Definition msg_rate_limited : string := "Превышены лимиты. Попробуйте позже.".
Definition msg_http_error (detail : string) : string := "HTTP ошибка: " +:+ detail.
Definition msg_network_error (detail : string) : string := "Ошибка сети: " +:+ detail.
Definition msg_unexpected_error (detail : string) : string :=
  "Непредвиденная ошибка: " +:+ detail.

(** The modes of the card: the strings ["first"] and ["pin"]. *)
Inductive mode_t : Type := ModeFirst | ModePin.

(** What the message line shows: a text, or the f-string
    [f"Баланс: {balance:.2f}. Ключ сохранён. Перейдите к входу по PIN."]
    kept by its argument. *)
Inductive text_value : Type :=
| Plain (s : string)
| BalanceSaved (balance : float).

(** The card: its mode, the values of the two text fields, the message
    line, the progress ring, the modal dialog open on the page with
    every dialog opened so far, and the keys handed to [on_success].
    The [visible] flag of each control is a function of [mode], at
    construction and in [switch_mode], and is left out. *)
Record card : Type := {
  mode : mode_t;
  api_key_tf_value : option string;
  pin_tf_value : option string;
  msg_value : text_value;
  progress_visible : bool;
  open_dialog : option string;
  dialogs_opened : list string;
  handed_over : list json
}.

Definition set_mode (m : mode_t) (c : card) : card :=
  {| mode := m; api_key_tf_value := api_key_tf_value c;
     pin_tf_value := pin_tf_value c; msg_value := msg_value c;
     progress_visible := progress_visible c; open_dialog := open_dialog c;
     dialogs_opened := dialogs_opened c; handed_over := handed_over c |}.

Definition set_api_key_tf (v : option string) (c : card) : card :=
  {| mode := mode c; api_key_tf_value := v;
     pin_tf_value := pin_tf_value c; msg_value := msg_value c;
     progress_visible := progress_visible c; open_dialog := open_dialog c;
     dialogs_opened := dialogs_opened c; handed_over := handed_over c |}.

Definition set_pin_tf (v : option string) (c : card) : card :=
  {| mode := mode c; api_key_tf_value := api_key_tf_value c;
     pin_tf_value := v; msg_value := msg_value c;
     progress_visible := progress_visible c; open_dialog := open_dialog c;
     dialogs_opened := dialogs_opened c; handed_over := handed_over c |}.

Definition set_msg (t : text_value) (c : card) : card :=
  {| mode := mode c; api_key_tf_value := api_key_tf_value c;
     pin_tf_value := pin_tf_value c; msg_value := t;
     progress_visible := progress_visible c; open_dialog := open_dialog c;
     dialogs_opened := dialogs_opened c; handed_over := handed_over c |}.

Definition set_progress (b : bool) (c : card) : card :=
  {| mode := mode c; api_key_tf_value := api_key_tf_value c;
     pin_tf_value := pin_tf_value c; msg_value := msg_value c;
     progress_visible := b; open_dialog := open_dialog c;
     dialogs_opened := dialogs_opened c; handed_over := handed_over c |}.

(** [page.open(dlg)] and [page.close(dlg)]. *)
Definition open_dlg (content : string) (c : card) : card :=
  {| mode := mode c; api_key_tf_value := api_key_tf_value c;
     pin_tf_value := pin_tf_value c; msg_value := msg_value c;
     progress_visible := progress_visible c; open_dialog := Some content;
     dialogs_opened := dialogs_opened c ++ [content];
     handed_over := handed_over c |}.

Definition close_dlg (c : card) : card :=
  {| mode := mode c; api_key_tf_value := api_key_tf_value c;
     pin_tf_value := pin_tf_value c; msg_value := msg_value c;
     progress_visible := progress_visible c; open_dialog := None;
     dialogs_opened := dialogs_opened c; handed_over := handed_over c |}.

(** [on_success(api_key)]: the host receives the key. *)
Definition hand_over (k : json) (c : card) : card :=
  {| mode := mode c; api_key_tf_value := api_key_tf_value c;
     pin_tf_value := pin_tf_value c; msg_value := msg_value c;
     progress_visible := progress_visible c; open_dialog := open_dialog c;
     dialogs_opened := dialogs_opened c; handed_over := handed_over c ++ [k] |}.

(** The card as it is built: empty fields, no message, no dialog. *)
Definition new_card (m : mode_t) : card :=
  {| mode := m; api_key_tf_value := Some ""; pin_tf_value := Some "";
     msg_value := Plain ""; progress_visible := false;
     open_dialog := None; dialogs_opened := []; handed_over := [] |}.

(** The running application: the card and the world around it. *)
Record app : Type := { ui : card; env : world }.

Definition get_ui : M app card := fun s => (Ok (ui s), s).

Definition modify_ui (f : card -> card) : M app unit :=
  fun s => (Ok tt, {| ui := f (ui s); env := env s |}).

Definition in_env {A} (m : M world A) : M app A :=
  fun s => let (r, w) := m (env s) in (r, {| ui := ui s; env := w |}).

(** The content of the dialog that shows the new PIN. *)
Definition pin_dialog (pin : string) : string :=
  "Ваш PIN: " +:+ pin +:+ PyStr.LF +:+ "Сохраните его — он потребуется при входе.".

Definition msg_enter_key : string := "Введите ключ OpenRouter".
Definition msg_check_failed : string := "Недостаточный баланс или неверный ключ".
Definition msg_invalid_format : string := "Введите 4-значный PIN".
Definition msg_wrong_pin : string := "Неверный PIN".

(** The states of the gate as the specification names them, read off
    the card: the dialog with the new PIN is modal, so the card is in
    PIN_ISSUED for as long as it is open. *)
Inductive gate_state : Type :=
| FIRST_RUN
| PIN_ISSUED
| PIN_ENTRY
| AUTHENTICATED.

Definition state_of (c : card) : gate_state :=
  match handed_over c with
  | _ :: _ => AUTHENTICATED
  | [] =>
      match mode c with
      | ModeFirst => FIRST_RUN
      | ModePin =>
          match open_dialog c with
          | Some _ => PIN_ISSUED
          | None => PIN_ENTRY
          end
      end
  end.

Section Gate.

(** [float(s)] for a [str], the interpreter's conversion. *)
Variable float_of_str : string -> result float.

(** [float(x)]. *)
Definition py_float (x : json) : result float :=
  match x with
  | JFloat f => Ok f
  | JInt z => float_of_Z z
  | JBool b => Ok (if b then 1%float else 0%float)
  | JStr s => float_of_str s
  | _ => Raise (TypeError ("float() argument must be a string or a real number, not '"
                        +:+ type_name x +:+ "'"))
  end.

Definition check_api_key_balance (api_key : string) : M world (bool * float * string) :=
  try_except
    (r <- requests_get api_key ;;
     if (status_code r =? 401)%Z || (status_code r =? 403)%Z
     then ret (false, 0%float, msg_invalid_key)
     else if (status_code r =? 429)%Z
     then ret (false, 0%float, msg_rate_limited)
     else
       lift (raise_for_status r) ;;
       body <- lift (json_body r) ;;
       data <- lift (py_get_default body "data" (JObj ∅)) ;;
       total_credits <- lift (py_get_default data "total_credits" (JFloat 0%float)) ;;
       total <- lift (py_float total_credits) ;;
       total_usage <- lift (py_get_default data "total_usage" (JFloat 0%float)) ;;
       used <- lift (py_float total_usage) ;;
       let balance := PrimFloat.sub total used in
       ret (PrimFloat.ltb 0%float balance, balance, ""))
    (fun e =>
       if is_HTTPError e
       then Some (ret (false, 0%float, msg_http_error (response_text_or_str e)))
       else if is_RequestException e
       then Some (ret (false, 0%float, msg_network_error (exn_str e)))
       else Some (ret (false, 0%float, msg_unexpected_error (exn_str e)))).

(** [make_login_card] up to the handlers: the mode the card starts in. *)
Definition make_login_card : M world card :=
  creds <- Auth.get_credentials ;;
  let '(api_key, _, _) := creds in
  ret (new_card (if truthy api_key then ModePin else ModeFirst)).

Definition switch_mode (new_mode : mode_t) : M app unit :=
  modify_ui (set_mode new_mode) ;;
  modify_ui (set_msg (Plain "")).

Definition on_reset_click : M app unit :=
  in_env Auth.clear_credentials ;;
  modify_ui (set_api_key_tf (Some "")) ;;
  modify_ui (set_pin_tf (Some "")) ;;
  switch_mode ModeFirst.

Definition on_check_click : M app unit :=
  c <- get_ui ;;
  let key := PyStr.strip (or_empty (api_key_tf_value c)) in
  if String.eqb key "" then modify_ui (set_msg (Plain msg_enter_key))
  else
    modify_ui (set_progress true) ;;
    checked <- in_env (check_api_key_balance key) ;;
    let '(ok, balance, err) := checked in
    modify_ui (set_progress false) ;;
    if negb ok then modify_ui (set_msg (Plain (str_or err msg_check_failed)))
    else
      n <- in_env (Secrets.randbelow 10000) ;;
      let pin := PyStr.format_04d n in
      in_env (Auth.save_credentials key pin) ;;
      modify_ui (open_dlg (pin_dialog pin)) ;;
      modify_ui (set_msg (BalanceSaved balance)) ;;
      switch_mode ModePin.

(** The dialog's OK button: [page.close(dlg)]. *)
Definition on_dialog_ok : M app unit := modify_ui close_dlg.

Definition on_login_click : M app unit :=
  c <- get_ui ;;
  let pin := PyStr.strip (or_empty (pin_tf_value c)) in
  if negb (PyStr.len pin =? 4)%nat || negb (PyStr.isdigit pin)
  then modify_ui (set_msg (Plain msg_invalid_format))
  else
    ok <- in_env (Auth.verify_pin pin) ;;
    if negb ok then modify_ui (set_msg (Plain msg_wrong_pin))
    else
      creds <- in_env Auth.get_credentials ;;
      let '(api_key, _, _) := creds in
      modify_ui (hand_over api_key).

End Gate.

End AuthGate.

(** ** The model selector ([src/ui/components.py]) *)

Module Components.

(** [ft.dropdown.Option(key=..., text=...)].  The constructor takes what
    it is given, so both fields hold arbitrary values. *)
Record Option : Type := { key : json; text : json }.

(** The fields of a [ModelSelector] that its own code reads or writes,
    and the number of [page.update()] calls it has made. *)
Record ModelSelector : Type := {
  options : list Option;
  all_options : list Option;
  value : json;
  search_field_value : option string;
  page_updates : nat
}.

(** [KeyError], which [model['id']] raises on a dict without the key. *)
Inductive key_error : Type :=
| KeyError (k : string).

Definition subscript (model : gmap string json) (k : string) : key_error + json :=
  match model !! k with
  | Some v => inr v
  | None => inl (KeyError k)
  end.

(** [[ft.dropdown.Option(key=model['id'], text=model['name']) for model in models]]. *)
Fixpoint make_options (models : list (gmap string json)) : key_error + list Option :=
  match models with
  | [] => inr []
  | model :: rest =>
      match subscript model "id" with
      | inl e => inl e
      | inr id =>
          match subscript model "name" with
          | inl e => inl e
          | inr name =>
              match make_options rest with
              | inl e => inl e
              | inr opts => inr ({| key := id; text := name |} :: opts)
              end
          end
      end
  end.

(** [ModelSelector.__init__]: the options, their copy, and the first
    model's id as the value ([None] when there is no model). *)
Definition __init__ (models : list (gmap string json)) : key_error + ModelSelector :=
  match make_options models with
  | inl e => inl e
  | inr opts =>
      match match models with
            | [] => inr JNull
            | model :: _ => subscript model "id"
            end with
      | inl e => inl e
      | inr v =>
          inr {| options := opts; all_options := opts; value := v;
                 search_field_value := Some ""; page_updates := 0 |}
      end
  end.

(** [needle in hay] for two strings. *)
Fixpoint contains (needle hay : string) : bool :=
  String.prefix needle hay
  || match hay with
     | EmptyString => false
     | String _ rest => contains needle rest
     end.

Definition set_options (l : list Option) (self : ModelSelector) : ModelSelector :=
  {| options := l; all_options := all_options self; value := value self;
     search_field_value := search_field_value self;
     page_updates := page_updates self |}.

Definition set_search_field_value (v : option string) (self : ModelSelector)
  : ModelSelector :=
  {| options := options self; all_options := all_options self; value := value self;
     search_field_value := v; page_updates := page_updates self |}.

Definition page_update (self : ModelSelector) : ModelSelector :=
  {| options := options self; all_options := all_options self; value := value self;
     search_field_value := search_field_value self;
     page_updates := S (page_updates self) |}.

Section Selector.

(** [str.lower], the interpreter's case mapping. *)
Variable lower : string -> string.

(** [x.lower()] for an arbitrary object: only a [str] has the method. *)
Definition py_lower (x : json) : result string :=
  match x with
  | JStr s => Ok (lower s)
  | _ => Raise (no_attribute x "lower")
  end.

(** [search_text in opt.text.lower() or search_text in opt.key.lower()]. *)
Definition option_matches (search_text : string) (opt : Option) : result bool :=
  rbind (py_lower (text opt)) (fun t =>
  if contains search_text t then Ok true
  else rbind (py_lower (key opt)) (fun k => Ok (contains search_text k))).

(** The list comprehension over [all_options]. *)
Fixpoint matching_options (search_text : string) (l : list Option)
  : result (list Option) :=
  match l with
  | [] => Ok []
  | opt :: rest =>
      rbind (option_matches search_text opt) (fun shown =>
      rbind (matching_options search_text rest) (fun r =>
      Ok (if shown then opt :: r else r)))
  end.

Definition filter_options : M ModelSelector unit :=
  fun self =>
    let search_text :=
      match search_field_value self with
      | Some v => if String.eqb v "" then "" else lower v
      | None => ""
      end in
    if String.eqb search_text ""
    then (Ok tt, page_update (set_options (all_options self) self))
    else
      match matching_options search_text (all_options self) with
      | Raise e => (Raise e, self)
      | Ok l => (Ok tt, page_update (set_options l self))
      end.

(** The user edits the search field: the field takes the text and its
    [on_change] handler runs. *)
Definition on_change (v : option string) : M ModelSelector unit :=
  fun self => filter_options (set_search_field_value v self).

End Selector.

End Components.

(** ** Starting the application ([src/auth_gate.py]: [launch_legacy_ui], [boot]) *)

Module Boot.

(** The controls the code puts on the page. *)
Inductive control : Type :=
| Text (value : string)
| Column (children : list control)
| Container (content : control)
| LoginCard (c : AuthGate.card).

(** The page: its controls, the number of [page.update()] calls, the
    attributes [boot] assigns, the session store, and the entry points
    of [main.py] that were called with the page, in order. *)
Record page : Type := {
  controls : list control;
  updates : nat;
  props : gmap string string;
  session : gmap string json;
  called : list string
}.

(** What [callable], [inspect.signature] and a call with the page
    answer for an object: [signature] is [len(sig.parameters)] or the
    exception [inspect.signature] raises, [call] the outcome of
    [f(page)]. *)
Record callee : Type := {
  is_callable : bool;
  signature : result nat;
  call : result unit
}.

(** An attribute of the imported module.  [construct] is the outcome of
    calling it without arguments, and, when that returns an object, the
    object's attribute [main] if it has one. *)
Record attribute : Type := {
  fn : callee;
  construct : result (option callee)
}.

(** The module [main] as [dir] lists it: names with their values. *)
Definition module : Type := list (string * attribute).

(** The process: the page, [os.environ], the store with its
    surroundings, and what [importlib.import_module("main")] gives. *)
Record host : Type := {
  pg : page;
  environ : gmap string string;
  os_world : world;
  main_py : result module
}.

Definition modify_page (f : page -> page) : M host unit :=
  fun h => (Ok tt, {| pg := f (pg h); environ := environ h;
                      os_world := os_world h; main_py := main_py h |}).

Definition page_clean (p : page) : page :=
  {| controls := []; updates := updates p; props := props p;
     session := session p; called := called p |}.

Definition page_add (c : control) (p : page) : page :=
  {| controls := controls p ++ [c]; updates := updates p; props := props p;
     session := session p; called := called p |}.

Definition page_update (p : page) : page :=
  {| controls := controls p; updates := S (updates p); props := props p;
     session := session p; called := called p |}.

Definition page_set (k v : string) (p : page) : page :=
  {| controls := controls p; updates := updates p; props := <[k := v]> (props p);
     session := session p; called := called p |}.


Definition record_call (name : string) (p : page) : page :=
  {| controls := controls p; updates := updates p; props := props p;
     session := session p; called := called p ++ [name] |}.

(** [page.add(c)] followed by [page.update()]. *)
Definition show (c : control) : M host unit :=
  modify_page (page_add c) ;; modify_page page_update.

(** [f(page)]: the call is made, and returns or raises as [f] does.
    What the called code does with the page is its own business and is
    not followed here. *)
Definition call_with_page (name : string) (f : callee) : M host unit :=
  modify_page (record_call name) ;; lift (call f).

(** [isinstance(e, (TypeError, ValueError))]: [json.JSONDecodeError] and
    [binascii.Error] are subclasses of [ValueError]. *)
Definition is_TypeError_or_ValueError (e : exn) : bool :=
  match e with
  | TypeError _ | ValueError _ | JSONDecodeError _ | BinasciiError _ => true
  | _ => false
  end.

Definition msg_import_failed (e : exn) : string :=
  "Не удалось импортировать main.py: " +:+ exn_str e.
Definition msg_chat_app_failed (e : exn) : string :=
  "Ошибка при запуске ChatApp.main(page): " +:+ exn_str e.
Definition msg_call_failed (name : string) (e : exn) : string :=
  "Ошибка при вызове " +:+ name +:+ "(page): " +:+ exn_str e.
Definition msg_signature_failed (e : exn) : string :=
  "Ошибка анализа сигнатуры main(): " +:+ exn_str e.

Definition main_without_parameters : control :=
  Column
    [Text "В main.py найден main() БЕЗ параметров.";
     Text "Его нельзя запускать изнутри auth_gate, т.к. он сам создаёт новую Flet-аппу.";
     Text ("Решения:" +:+ PyStr.LF
           +:+ "  • Добавьте в main.py функцию вида app_main(page: ft.Page) и позвольте auth_gate её вызвать"
           +:+ PyStr.LF
           +:+ "  • ИЛИ оставьте класс ChatApp с методом main(self, page) — auth_gate запустит его"
           +:+ PyStr.LF
           +:+ "  • Третий вариант: сделайте отдельный файл с page-хендлером и импортируйте его в main.py")].

Definition no_entry_point : control :=
  Column
    [Text "Не нашёл подходящую точку входа в main.py";
     Text ("Экспортируйте либо класс ChatApp с методом main(self, page), "
           +:+ "либо функцию с одним параметром (page).")].

(** [getattr(m, name)] for a name [hasattr] finds. *)
Fixpoint lookup_attr (name : string) (m : module) : option attribute :=
  match m with
  | [] => None
  | (n, a) :: rest => if String.eqb n name then Some a else lookup_attr name rest
  end.

(** Step 1: [ChatApp().main(page)].  The answer tells whether the
    function is done ([return]) or goes on to the next step. *)
Definition try_chat_app (m : module) : M host bool :=
  match lookup_attr "ChatApp" m with
  | None => ret false
  | Some cls =>
      try_except
        (app_main <- lift (construct cls) ;;
         match app_main with
         | Some f =>
             if is_callable f then
               n <- lift (signature f) ;;
               if (n =? 1)%nat then call_with_page "ChatApp.main" f ;; ret true
               else ret false
             else ret false
         | None => ret false
         end)
        (fun e => Some (show (Text (msg_chat_app_failed e)) ;; ret true))
  end.

(** Step 2: the public callables of the module, the preferred names
    first and each group in the order of the names. *)
Definition callable_attrs (m : module) : list (string * attribute) :=
  List.filter (fun t => is_callable (fn (snd t))) m.

Definition public_funcs (m : module) : list (string * attribute) :=
  List.filter (fun t => negb (String.prefix "_" (fst t))) (callable_attrs m).

Definition preferred_names : list string :=
  ["app_main"; "render"; "build_ui"; "start"; "run"; "ui"; "entry"; "bootstrap"; "main"].

Definition preferred (name : string) : bool :=
  existsb (String.eqb name) preferred_names.

(** [(a not in preferred_names, a) <= (b not in preferred_names, b)]. *)
Definition key_leb (a b : string) : bool :=
  match preferred a, preferred b with
  | true, false => true
  | false, true => false
  | _, _ => String.leb a b
  end.

(** [sorted(l, key=...)]: a stable sort, here by insertion. *)
Fixpoint insert_sorted (t : string * attribute) (l : list (string * attribute))
  : list (string * attribute) :=
  match l with
  | [] => [t]
  | u :: rest =>
      if key_leb (fst t) (fst u) then t :: l else u :: insert_sorted t rest
  end.

Definition sorted (l : list (string * attribute)) : list (string * attribute) :=
  fold_right insert_sorted [] l.

Definition sorted_funcs (m : module) : list (string * attribute) :=
  sorted (public_funcs m).

(** The loop over [sorted_funcs]: a signature [inspect] cannot give
    ([TypeError], [ValueError]) skips the function, any other exception
    of [inspect.signature] is not caught. *)
Fixpoint try_funcs (fs : list (string * attribute)) : M host bool :=
  match fs with
  | [] => ret false
  | (name, a) :: rest =>
      match signature (fn a) with
      | Raise e => if is_TypeError_or_ValueError e then try_funcs rest else lift (Raise e)
      | Ok n =>
          if (n =? 1)%nat
          then try_except (call_with_page name (fn a) ;; ret true)
                 (fun e => Some (show (Text (msg_call_failed name e)) ;; ret true))
          else try_funcs rest
      end
  end.

(** Step 3: a [main] without parameters is explained, not called. *)
Definition explain_main (m : module) : M host bool :=
  match lookup_attr "main" m with
  | Some a =>
      if is_callable (fn a) then
        try_except
          (n <- lift (signature (fn a)) ;;
           if (n =? 0)%nat then show main_without_parameters ;; ret true
           else ret false)
          (fun e => Some (show (Text (msg_signature_failed e)) ;; ret true))
      else ret false
  | None => ret false
  end.

Definition launch_legacy_ui : M host unit :=
  modify_page page_clean ;;
  fun h =>
    match main_py h with
    | Raise e => show (Text (msg_import_failed e)) h
    | Ok m =>
        (done <- try_chat_app m ;;
         if done then ret tt
         else
           done <- try_funcs (sorted_funcs m) ;;
           if done then ret tt
           else
             done <- explain_main m ;;
             if done then ret tt
             else show no_entry_point) h
    end.



(** [make_login_card] reads the store of the process. *)
Definition in_world {A} (m : M world A) : M host A :=
  fun h =>
    let (r, w) := m (os_world h) in
    (r, {| pg := pg h; environ := environ h; os_world := w; main_py := main_py h |}).

Definition boot : M host unit :=
  modify_page (page_set "theme_mode" "LIGHT") ;;
  modify_page (page_set "horizontal_alignment" "CENTER") ;;
  modify_page (page_set "vertical_alignment" "CENTER") ;;
  login_card <- in_world AuthGate.make_login_card ;;
  modify_page (page_add (Container (LoginCard login_card))) ;;
  modify_page page_update.

End Boot.

(* ===================================================================== *)
(** * Part II: vocabulary of the statements                               *)
(* ===================================================================== *)

(** ** Exhaustive checks *)

(** [p] holds of every natural number below [n]. *)
Fixpoint forall_below (n : nat) (p : nat -> bool) : bool :=
  match n with
  | O => true
  | S n' => p n' && forall_below n' p
  end.

Module Base64Checks.
Local Open Scope N_scope.

(** The character of a sextet is in the alphabet, decodes to the sextet
    and is ASCII. *)
Definition sextet_ok (s : N) : bool :=
  negb (Ascii.eqb (Base64.b2a s) "="%char)
  && match Base64.a2b (Base64.b2a s) with Some v => v =? s | None => false end
  && (N_of_ascii (Base64.b2a s) <? 128).

(** The sextets of a group of bytes, and what the decoder rebuilds from
    them. *)
Definition first_ok (a : N) : bool := N.shiftr a 2 <? 64.

Definition second_ok (a b : N) : bool :=
  let s1 := N.lor (N.shiftl (N.land a 3) 4) (N.shiftr b 4) in
  (s1 <? 64)
  && (N.lor (N.shiftl (N.shiftr a 2) 2) (N.shiftr s1 4) =? a)
  && (N.land s1 15 =? N.shiftr b 4).

Definition third_ok (b c : N) : bool :=
  let s2 := N.lor (N.shiftl (N.land b 15) 2) (N.shiftr c 6) in
  (s2 <? 64)
  && (N.lor (N.shiftl (N.shiftr b 4) 4) (N.shiftr s2 2) =? b)
  && (N.land s2 3 =? N.shiftr c 6).

Definition fourth_ok (c : N) : bool :=
  (N.land c 63 <? 64)
  && (N.lor (N.shiftl (N.shiftr c 6) 6) (N.land c 63) =? c).

Definition second_last_ok (a : N) : bool :=
  let s1 := N.shiftl (N.land a 3) 4 in
  (s1 <? 64) && (N.lor (N.shiftl (N.shiftr a 2) 2) (N.shiftr s1 4) =? a).

Definition third_last_ok (b : N) : bool :=
  let s2 := N.shiftl (N.land b 15) 2 in
  (s2 <? 64) && (N.lor (N.shiftl (N.shiftr b 4) 4) (N.shiftr s2 2) =? b).

End Base64Checks.

(** ** The store *)

(** The digest stored for [pin] under the salt whose bytes are [raw]. *)
Definition digest_of_pin (pin : string) (raw : list byte) : string :=
  Base64.b64encode (Hmac.pbkdf2_hmac_sha256 (Bytes.of_string pin) raw 100000).

(** What [_load_db] answers for a state of the store file. *)
Definition loaded (f : file_state) : json :=
  match f with
  | Holds v => v
  | _ => JObj ∅
  end.

(** [d.get(k)] on a dict. *)
Definition field (d : gmap string json) (k : string) : json :=
  default JNull (d !! k).

(** The world after one more read and after a write of [d]. *)
Definition after_read (w : world) : world := set_file (file w) OpenedForRead w.

Definition after_write (d : json) (w : world) : world :=
  set_file (Holds d) OpenedForWrite w.

(** The salt [save_credentials] draws in [w], and the dict it writes. *)
Definition fresh_salt (w : world) : list byte :=
  map (fun i => Bytes.byte_of_N (entropy w (drawn w + i))) (seq 0 16).


(** A machine with no network, whose entropy source yields 4821 at
    every draw, and whose store file is in state [f]. *)
Definition offline : string -> result response :=
  fun _ => Raise (RequestException "Connection refused").

Definition world_with (f : file_state) : world :=
  {| file := f; accesses := []; entropy := fun _ => 4821%N; drawn := 0;
     net := offline |}.

(** A stored record, with session data of the host beside it. *)
Definition old_record : gmap string json :=
  <["api_key" := JStr "sk-old"]>
    (<["pin_hash" := JStr "H"]>
       (<["pin_salt" := JStr "Uw=="]>
          (<["theme" := JStr "dark"]> ∅))).

(** A record that holds a key and neither hash nor salt. *)
Definition key_only : gmap string json := <["api_key" := JStr "sk-old"]> ∅.




(** ** The key validator *)

(** An interpreter whose [float] accepts no string. *)
Definition no_float_of_str : string -> result float :=
  fun _ => Raise (ValueError "could not convert string to float").

(** A machine whose store file is in state [f] and on which every
    request to the credits endpoint has the outcome [r]. *)
Definition world_online (f : file_state) (r : result response) : world :=
  {| file := f; accesses := []; entropy := fun _ => 4821%N; drawn := 0;
     net := fun _ => r |}.

(** The body [{"data": {"total_credits": total, "total_usage": used}}]. *)
Definition credits_body (total used : json) : json :=
  JObj (<["data" := JObj (<["total_credits" := total]>
                            (<["total_usage" := used]> ∅))]> ∅).

(** What the [try] block of [check_api_key_balance] reads from a
    response that passed the status checks: the two amounts, or the
    exception raised on the way. *)
Definition read_amounts (float_of_str : string -> result float) (r : response)
  : result (float * float) :=
  rbind (json_body r) (fun body =>
  rbind (py_get_default body "data" (JObj ∅)) (fun data =>
  rbind (py_get_default data "total_credits" (JFloat 0%float)) (fun total_credits =>
  rbind (AuthGate.py_float float_of_str total_credits) (fun total =>
  rbind (py_get_default data "total_usage" (JFloat 0%float)) (fun total_usage =>
  rbind (AuthGate.py_float float_of_str total_usage) (fun used =>
  Ok (total, used))))))).

(** ** The login card *)

(** The texts the two handlers read from the fields. *)
Definition submitted_key (c : AuthGate.card) : string :=
  PyStr.strip (or_empty (AuthGate.api_key_tf_value c)).

Definition submitted_pin (c : AuthGate.card) : string :=
  PyStr.strip (or_empty (AuthGate.pin_tf_value c)).

(** The test [on_login_click] makes on the stripped text: four
    characters, all of them digits for [str.isdigit]. *)
Definition passes_format_check (pin : string) : bool :=
  (PyStr.len pin =? 4)%nat && PyStr.isdigit pin.

(** The test the specification words: exactly four characters from
    ['0'] to ['9']. *)
Definition ascii_digit (c : ascii) : bool :=
  (48 <=? N_of_ascii c)%N && (N_of_ascii c <=? 57)%N.

Definition four_ascii_digits (s : string) : bool :=
  (String.length s =? 4)%nat && forallb ascii_digit (list_ascii_of_string s).


(** A card in mode ["pin"] with [s] typed into the PIN field, over a
    store that holds a key alone. *)
Definition pin_entry_with (s : string) : AuthGate.app :=
  {| AuthGate.ui := AuthGate.set_pin_tf (Some s) (AuthGate.new_card AuthGate.ModePin);
     AuthGate.env := world_with (Holds (JObj key_only)) |}.

(** A first run with [s] typed into the key field, on a machine where
    the request has the outcome [r]. *)
Definition first_run_with (s : string) (r : result response) : AuthGate.app :=
  {| AuthGate.ui := AuthGate.set_api_key_tf (Some s) (AuthGate.new_card AuthGate.ModeFirst);
     AuthGate.env := world_online Missing r |}.

(** A response [200 OK] that reports the two amounts. *)
Definition ok_response (total used : json) : response :=
  {| status_code := 200; text := "{...}"; json_body := Ok (credits_body total used) |}.







(** ** More vocabulary: the hasher and the store *)

(** [n] NUL characters. *)
Definition nuls (n : nat) : string := string_of_list_ascii (repeat Ascii.zero n).

(** A record whose salt is no base64 text: one alphabet character
    cannot stand alone. *)
Definition broken_salt : gmap string json :=
  <["pin_hash" := JStr "H"]> (<["pin_salt" := JStr "A"]> ∅).

(** ** More vocabulary: the login card *)

(** [_load_db] would answer a dict. *)
Definition store_ok (w : world) : bool :=
  match loaded (file w) with
  | JObj _ => true
  | _ => false
  end.

(** The text of four decimal digits. *)
Definition digit_char (k : N) : ascii := ascii_of_N (48 + k).

Definition four_digits (a b c d : N) : string :=
  String (digit_char a) (String (digit_char b)
    (String (digit_char c) (String (digit_char d) EmptyString))).

(** [f"{n:04d}"] writes the thousands, hundreds, tens and units of [n]. *)
Definition pin_digits_ok (n : N) : bool :=
  String.eqb (PyStr.format_04d n)
    (four_digits (n / 1000) ((n / 100) mod 10) ((n / 10) mod 10) (n mod 10))%N.

(** A digit character is the character of its value. *)
Definition digit_value_ok (k : nat) : bool :=
  negb (ascii_digit (ascii_of_nat k))
  || Ascii.eqb (digit_char (N.of_nat k - 48)) (ascii_of_nat k).

(** ** More vocabulary: the model selector *)

Definition is_str (x : json) : bool :=
  match x with
  | JStr _ => true
  | _ => false
  end.

(** Every option has a [str] for its key and for its text. *)
Definition all_str (l : list Components.Option) : bool :=
  forallb (fun o => is_str (Components.key o) && is_str (Components.text o)) l.

(** An option of strings whose lowered text or key holds the search
    text. *)
Definition shown (lower : string -> string) (search_text : string)
    (o : Components.Option) : bool :=
  match Components.text o, Components.key o with
  | JStr t, JStr k =>
      Components.contains search_text (lower t)
      || Components.contains search_text (lower k)
  | _, _ => false
  end.

(** The selector after the user has edited the search field several
    times; an edit whose handler raises leaves the text in the field. *)
Definition edits (lower : string -> string) (vs : list (option string))
    (self : Components.ModelSelector) : Components.ModelSelector :=
  fold_left (fun s v => snd (Components.on_change lower v s)) vs self.

(** A model dict has both keys the constructor subscripts. *)
Definition has_id_and_name (model : gmap string json) : bool :=
  match model !! "id", model !! "name" with
  | Some _, Some _ => true
  | _, _ => false
  end.

(** Both are there and are strings. *)
Definition str_id_and_name (model : gmap string json) : bool :=
  match model !! "id", model !! "name" with
  | Some (JStr _), Some (JStr _) => true
  | _, _ => false
  end.

(** The case mapping on the letters [A] to [Z], for the examples. *)
Definition ascii_lower (s : string) : string :=
  string_of_list_ascii
    (map (fun c => if (65 <=? N_of_ascii c)%N && (N_of_ascii c <=? 90)%N
                   then ascii_of_N (N_of_ascii c + 32) else c)
         (list_ascii_of_string s)).

Definition model (id name : json) : gmap string json :=
  <["id" := id]> (<["name" := name]> ∅).

Definition sample_models : list (gmap string json) :=
  [model (JStr "openai/gpt-4o") (JStr "GPT-4o");
   model (JStr "anthropic/claude-3") (JStr "Claude 3");
   model (JStr "meta/llama-3") (JStr "Llama 3")].

Definition sample_selector : Components.ModelSelector :=
  {| Components.options := [];
     Components.all_options :=
       [ {| Components.key := JStr "openai/gpt-4o"; Components.text := JStr "GPT-4o" |};
         {| Components.key := JStr "anthropic/claude-3"; Components.text := JStr "Claude 3" |};
         {| Components.key := JStr "meta/llama-3"; Components.text := JStr "Llama 3" |} ];
     Components.value := JStr "openai/gpt-4o";
     Components.search_field_value := Some "gpt";
     Components.page_updates := 3 |}.

(** A selector one of whose models came without a name. *)
Definition nameless_selector : Components.ModelSelector :=
  {| Components.options := [];
     Components.all_options :=
       [ {| Components.key := JStr "openai/gpt-4o"; Components.text := JStr "GPT-4o" |};
         {| Components.key := JStr "x/y"; Components.text := JNull |} ];
     Components.value := JStr "openai/gpt-4o";
     Components.search_field_value := Some "";
     Components.page_updates := 0 |}.

(** ** More vocabulary: starting the application *)

(** The host with other controls, update count and calls on its page. *)
Definition host_with (h : Boot.host) (cs : list Boot.control) (u : nat)
    (calls : list string) : Boot.host :=
  {| Boot.pg :=
       {| Boot.controls := cs; Boot.updates := u;
          Boot.props := Boot.props (Boot.pg h);
          Boot.session := Boot.session (Boot.pg h);
          Boot.called := calls |};
     Boot.environ := Boot.environ h;
     Boot.os_world := Boot.os_world h;
     Boot.main_py := Boot.main_py h |}.

(** The calls [launch_legacy_ui] adds to those made before. *)
Definition calls_made (h : Boot.host) : list string :=
  skipn (length (Boot.called (Boot.pg h)))
        (Boot.called (Boot.pg (snd (Boot.launch_legacy_ui h)))).

(** A callable whose signature has exactly one parameter. *)
Definition one_parameter (f : Boot.callee) : bool :=
  Boot.is_callable f
  && match Boot.signature f with
     | Ok 1 => true
     | _ => false
     end.

(** The attribute [main] of the object [ChatApp()] returns. *)
Definition chat_app_main (m : Boot.module) : option Boot.callee :=
  match Boot.lookup_attr "ChatApp" m with
  | Some cls =>
      match Boot.construct cls with
      | Ok (Some f) => Some f
      | _ => None
      end
  | None => None
  end.

(** A public callable of the module with one parameter. *)
Definition page_handler (t : string * Boot.attribute) : bool :=
  negb (String.prefix "_" (fst t)) && one_parameter (Boot.fn (snd t)).

(** What [name] stands for among the calls: the method [main] of a
    [ChatApp] object, or a public one-parameter callable of the module. *)
Definition entry_point (m : Boot.module) (name : string) : bool :=
  (String.eqb name "ChatApp.main"
   && match chat_app_main m with
      | Some f => one_parameter f
      | None => false
      end)
  || existsb (fun t => String.eqb (fst t) name && page_handler t) m.

(** [inspect.signature] answers, or refuses with [TypeError] or
    [ValueError], for every public callable. *)
Definition inspectable (t : string * Boot.attribute) : bool :=
  match Boot.signature (Boot.fn (snd t)) with
  | Ok _ => true
  | Raise e => Boot.is_TypeError_or_ValueError e
  end.

(** How [launch_legacy_ui], or a step of it, can end with answer [a],
    started on [h]: it has called one entry point, which returned; it
    has put one message on the page, after no call or after one call
    that raised; or [inspect.signature] raised something the loop lets
    pass. *)
Definition ends {A} (a : A) (m : Boot.module) (h : Boot.host)
    (r : result A * Boot.host) : Prop :=
  (exists name,
      entry_point m name = true
      /\ r = (Ok a,
              host_with h (Boot.controls (Boot.pg h)) (Boot.updates (Boot.pg h))
                (Boot.called (Boot.pg h) ++ [name])))
  \/ (exists c,
        r = (Ok a,
             host_with h (Boot.controls (Boot.pg h) ++ [c])
               (S (Boot.updates (Boot.pg h))) (Boot.called (Boot.pg h))))
  \/ (exists c name,
        entry_point m name = true
        /\ r = (Ok a,
                host_with h (Boot.controls (Boot.pg h) ++ [c])
                  (S (Boot.updates (Boot.pg h))) (Boot.called (Boot.pg h) ++ [name])))
  \/ (exists e,
        Boot.is_TypeError_or_ValueError e = false /\ r = (Raise e, h)).

(** A step either leaves the matter to the next step or ends the
    function. *)
Definition step_outcome (m : Boot.module) (h : Boot.host)
    (r : result bool * Boot.host) : Prop :=
  r = (Ok false, h) \/ ends true m h r.

(** The host as [page.clean()] leaves it. *)
Definition cleaned (h : Boot.host) : Boot.host :=
  host_with h [] (Boot.updates (Boot.pg h)) (Boot.called (Boot.pg h)).

Definition blank_page : Boot.page :=
  {| Boot.controls := [Boot.Text "old"]; Boot.updates := 0; Boot.props := ∅;
     Boot.session := ∅; Boot.called := [] |}.

Definition host_of (m : result Boot.module) : Boot.host :=
  {| Boot.pg := blank_page; Boot.environ := ∅;
     Boot.os_world := world_with Missing; Boot.main_py := m |}.

(** A function of [n] parameters that returns when called, a function
    that raises, and a class whose objects have a method [main]. *)
Definition func (n : nat) : Boot.attribute :=
  {| Boot.fn := {| Boot.is_callable := true; Boot.signature := Ok n;
                   Boot.call := if (n =? 1)%nat then Ok tt
                                else Raise (TypeError "wrong number of arguments") |};
     Boot.construct := if (n =? 0)%nat then Ok None
                       else Raise (TypeError "missing argument") |}.

Definition class_with_main (f : Boot.callee) : Boot.attribute :=
  {| Boot.fn := {| Boot.is_callable := true; Boot.signature := Ok 0;
                   Boot.call := Raise (TypeError "takes no arguments") |};
     Boot.construct := Ok (Some f) |}.

Definition method_main : Boot.callee :=
  {| Boot.is_callable := true; Boot.signature := Ok 1; Boot.call := Ok tt |}.

Definition constant : Boot.attribute :=
  {| Boot.fn := {| Boot.is_callable := false;
                   Boot.signature := Raise (TypeError "not a callable object");
                   Boot.call := Raise (TypeError "object is not callable") |};
     Boot.construct := Raise (TypeError "object is not callable") |}.

Definition sample_module : Boot.module :=
  [("ChatApp", class_with_main method_main); ("VERSION", constant);
   ("_helper", func 1); ("main", func 0); ("render", func 1); ("show", func 1)].

Definition module_without_class : Boot.module :=
  [("VERSION", constant); ("_helper", func 1); ("main", func 0);
   ("render", func 1); ("show", func 1)].

(** [inspect.signature] gives one parameter. *)
Definition takes_one (t : string * Boot.attribute) : bool :=
  match Boot.signature (Boot.fn (snd t)) with
  | Ok 1 => true
  | _ => false
  end.

(** Each element comes, by its key, before all that follow it. *)
Fixpoint ordered (l : list (string * Boot.attribute)) : Prop :=
  match l with
  | [] => True
  | t :: rest =>
      Forall (fun u => Boot.key_leb (fst t) (fst u) = true) rest /\ ordered rest
  end.

(** A host whose store file is in state [f]. *)
Definition host_on (f : file_state) : Boot.host :=
  {| Boot.pg := blank_page; Boot.environ := ∅;
     Boot.os_world := world_with f; Boot.main_py := Ok sample_module |}.

(* ===================================================================== *)
(** * Part III: properties                                                *)
(* ===================================================================== *)


(** ** Exhaustive checks over an initial segment of the naturals *)

Lemma forall_below_spec (n : nat) (p : nat -> bool) :
  forall_below n p = true -> forall k, (k < n)%nat -> p k = true.
Proof.
  induction n as [|n IH]; intros H k Hk; [lia|].
  simpl in H. apply andb_prop in H. destruct H as [Hn Hrest].
  destruct (Nat.eq_dec k n) as [->|Hne]; [exact Hn|].
  apply IH; [exact Hrest | lia].
Qed.

Lemma forall_below_N (n : N) (p : N -> bool) :
  forall_below (N.to_nat n) (fun k => p (N.of_nat k)) = true ->
  forall k : N, (k < n)%N -> p k = true.
Proof.
  intros H k Hk.
  pose proof (forall_below_spec _ _ H (N.to_nat k)) as Hp.
  cbv beta in Hp. rewrite N2Nat.id in Hp. apply Hp. lia.
Qed.

Lemma byte_to_N_lt (x : byte) : (Byte.to_N x < 256)%N.
Proof. pose proof (Byte.to_N_bounded x). lia. Qed.

Lemma forall_byte (p : N -> bool) :
  forall_below 256 (fun k => p (N.of_nat k)) = true ->
  forall x : byte, p (Byte.to_N x) = true.
Proof.
  intros H x. apply (forall_below_N 256 p); [exact H | apply byte_to_N_lt].
Qed.

Lemma forall_byte2 (p : N -> N -> bool) :
  forall_below 256 (fun a => forall_below 256 (fun b => p (N.of_nat a) (N.of_nat b))) = true ->
  forall x y : byte, p (Byte.to_N x) (Byte.to_N y) = true.
Proof.
  intros H x y.
  pose proof (forall_below_N 256
                (fun a => forall_below 256 (fun b => p a (N.of_nat b))) H
                (Byte.to_N x) (byte_to_N_lt x)) as Hx.
  cbv beta in Hx.
  exact (forall_below_N 256 (p (Byte.to_N x)) Hx (Byte.to_N y) (byte_to_N_lt y)).
Qed.

Lemma byte_of_to_N (x : byte) : Bytes.byte_of_N (Byte.to_N x) = x.
Proof.
  unfold Bytes.byte_of_N.
  rewrite N.mod_small by apply byte_to_N_lt.
  now rewrite Byte.of_to_N.
Qed.

(** ** Base64: decoding undoes encoding *)

Section Base64Facts.
Local Open Scope N_scope.
Import Base64 Base64Checks.

Lemma list_ind3 {A} (P : list A -> Prop) :
  P [] -> (forall x, P [x]) -> (forall x y, P [x; y]) ->
  (forall x y z l, P l -> P (x :: y :: z :: l)) ->
  forall l, P l.
Proof.
  intros H0 H1 H2 H3.
  fix IH 1. intros [|x [|y [|z l]]];
    [exact H0 | apply H1 | apply H2 | apply H3, IH].
Qed.

Lemma b2a_facts (s : N) :
  s < 64 ->
  Ascii.eqb (b2a s) "="%char = false /\ a2b (b2a s) = Some s
  /\ (N_of_ascii (b2a s) <? 128) = true.
Proof.
  intros Hs.
  assert (H : sextet_ok s = true).
  { apply (forall_below_N 64 sextet_ok); [vm_compute; reflexivity | exact Hs]. }
  unfold sextet_ok in H.
  apply andb_prop in H. destruct H as [H H3].
  apply andb_prop in H. destruct H as [H1 H2].
  apply negb_true_iff in H1.
  destruct (a2b (b2a s)) as [v|]; [|discriminate].
  apply N.eqb_eq in H2. subst v. auto.
Qed.

Lemma step_0 (s : N) (r : string) (l p : N) (out : list byte) :
  s < 64 -> a2b_loop (String (b2a s) r) 0 l p out = a2b_loop r 1 s 0 out.
Proof.
  intros Hs. destruct (b2a_facts s Hs) as (H1 & H2 & _).
  cbn [a2b_loop]. rewrite H1, H2. reflexivity.
Qed.

Lemma step_1 (s : N) (r : string) (l p : N) (out : list byte) :
  s < 64 ->
  a2b_loop (String (b2a s) r) 1 l p out =
  a2b_loop r 2 (N.land s 15) 0
    (out ++ [Bytes.byte_of_N (N.lor (N.shiftl l 2) (N.shiftr s 4))]).
Proof.
  intros Hs. destruct (b2a_facts s Hs) as (H1 & H2 & _).
  cbn [a2b_loop]. rewrite H1, H2. reflexivity.
Qed.

Lemma step_2 (s : N) (r : string) (l p : N) (out : list byte) :
  s < 64 ->
  a2b_loop (String (b2a s) r) 2 l p out =
  a2b_loop r 3 (N.land s 3) 0
    (out ++ [Bytes.byte_of_N (N.lor (N.shiftl l 4) (N.shiftr s 2))]).
Proof.
  intros Hs. destruct (b2a_facts s Hs) as (H1 & H2 & _).
  cbn [a2b_loop]. rewrite H1, H2. reflexivity.
Qed.

Lemma step_3 (s : N) (r : string) (l p : N) (out : list byte) :
  s < 64 ->
  a2b_loop (String (b2a s) r) 3 l p out =
  a2b_loop r 0 0 0 (out ++ [Bytes.byte_of_N (N.lor (N.shiftl l 6) s)]).
Proof.
  intros Hs. destruct (b2a_facts s Hs) as (H1 & H2 & _).
  cbn [a2b_loop]. rewrite H1, H2. reflexivity.
Qed.

Lemma first_facts (x : byte) : N.shiftr (Byte.to_N x) 2 < 64.
Proof.
  apply N.ltb_lt. apply (forall_byte first_ok). vm_compute. reflexivity.
Qed.

Lemma second_facts (x y : byte) :
  let a := Byte.to_N x in
  let b := Byte.to_N y in
  let s1 := N.lor (N.shiftl (N.land a 3) 4) (N.shiftr b 4) in
  s1 < 64
  /\ N.lor (N.shiftl (N.shiftr a 2) 2) (N.shiftr s1 4) = a
  /\ N.land s1 15 = N.shiftr b 4.
Proof.
  intros a b s1.
  assert (H : second_ok a b = true).
  { apply (forall_byte2 second_ok). vm_compute. reflexivity. }
  unfold second_ok in H. fold s1 in H.
  apply andb_prop in H. destruct H as [H H3].
  apply andb_prop in H. destruct H as [H1 H2].
  apply N.ltb_lt in H1. apply N.eqb_eq in H2. apply N.eqb_eq in H3. auto.
Qed.

Lemma third_facts (y z : byte) :
  let b := Byte.to_N y in
  let c := Byte.to_N z in
  let s2 := N.lor (N.shiftl (N.land b 15) 2) (N.shiftr c 6) in
  s2 < 64
  /\ N.lor (N.shiftl (N.shiftr b 4) 4) (N.shiftr s2 2) = b
  /\ N.land s2 3 = N.shiftr c 6.
Proof.
  intros b c s2.
  assert (H : third_ok b c = true).
  { apply (forall_byte2 third_ok). vm_compute. reflexivity. }
  unfold third_ok in H. fold s2 in H.
  apply andb_prop in H. destruct H as [H H3].
  apply andb_prop in H. destruct H as [H1 H2].
  apply N.ltb_lt in H1. apply N.eqb_eq in H2. apply N.eqb_eq in H3. auto.
Qed.

Lemma fourth_facts (z : byte) :
  let c := Byte.to_N z in
  N.land c 63 < 64 /\ N.lor (N.shiftl (N.shiftr c 6) 6) (N.land c 63) = c.
Proof.
  intros c.
  assert (H : fourth_ok c = true).
  { apply (forall_byte fourth_ok). vm_compute. reflexivity. }
  unfold fourth_ok in H.
  apply andb_prop in H. destruct H as [H1 H2].
  apply N.ltb_lt in H1. apply N.eqb_eq in H2. auto.
Qed.

Lemma second_last_facts (x : byte) :
  let a := Byte.to_N x in
  let s1 := N.shiftl (N.land a 3) 4 in
  s1 < 64 /\ N.lor (N.shiftl (N.shiftr a 2) 2) (N.shiftr s1 4) = a.
Proof.
  intros a s1.
  assert (H : second_last_ok a = true).
  { apply (forall_byte second_last_ok). vm_compute. reflexivity. }
  unfold second_last_ok in H. fold s1 in H.
  apply andb_prop in H. destruct H as [H1 H2].
  apply N.ltb_lt in H1. apply N.eqb_eq in H2. auto.
Qed.

Lemma third_last_facts (y : byte) :
  let b := Byte.to_N y in
  let s2 := N.shiftl (N.land b 15) 2 in
  s2 < 64 /\ N.lor (N.shiftl (N.shiftr b 4) 4) (N.shiftr s2 2) = b.
Proof.
  intros b s2.
  assert (H : third_last_ok b = true).
  { apply (forall_byte third_last_ok). vm_compute. reflexivity. }
  unfold third_last_ok in H. fold s2 in H.
  apply andb_prop in H. destruct H as [H1 H2].
  apply N.ltb_lt in H1. apply N.eqb_eq in H2. auto.
Qed.

Lemma a2b_loop_b2a (bs : list byte) :
  forall out, a2b_loop (b2a_base64 bs) 0 0 0 out = Ok (out ++ bs)%list.
Proof.
  induction bs as [|x|x y|x y z rest IH] using list_ind3; intros out.
  - simpl. now rewrite app_nil_r.
  - cbn [b2a_base64].
    destruct (second_last_facts x) as (Hs1 & Hb).
    rewrite step_0 by apply first_facts.
    rewrite step_1 by exact Hs1.
    rewrite Hb, byte_of_to_N. reflexivity.
  - cbn [b2a_base64].
    destruct (second_facts x y) as (Hs1 & Ha & Hl).
    destruct (third_last_facts y) as (Hs2 & Hb).
    rewrite step_0 by apply first_facts.
    rewrite step_1 by exact Hs1.
    rewrite step_2 by exact Hs2.
    rewrite Ha, Hl, Hb, !byte_of_to_N, <- app_assoc. reflexivity.
  - cbn [b2a_base64].
    destruct (second_facts x y) as (Hs1 & Ha & Hl1).
    destruct (third_facts y z) as (Hs2 & Hb & Hl2).
    destruct (fourth_facts z) as (Hs3 & Hc).
    rewrite step_0 by apply first_facts.
    rewrite step_1 by exact Hs1.
    rewrite step_2 by exact Hs2.
    rewrite step_3 by exact Hs3.
    rewrite Ha, Hl1, Hb, Hl2, Hc, !byte_of_to_N, IH, <- !app_assoc.
    reflexivity.
Qed.

Lemma is_ascii_b2a (bs : list byte) : is_ascii (b2a_base64 bs) = true.
Proof.
  induction bs as [|x|x y|x y z rest IH] using list_ind3.
  - reflexivity.
  - cbn [b2a_base64 is_ascii].
    destruct (second_last_facts x) as (Hs1 & _).
    destruct (b2a_facts _ (first_facts x)) as (_ & _ & ->).
    destruct (b2a_facts _ Hs1) as (_ & _ & ->). reflexivity.
  - cbn [b2a_base64 is_ascii].
    destruct (second_facts x y) as (Hs1 & _).
    destruct (third_last_facts y) as (Hs2 & _).
    destruct (b2a_facts _ (first_facts x)) as (_ & _ & ->).
    destruct (b2a_facts _ Hs1) as (_ & _ & ->).
    destruct (b2a_facts _ Hs2) as (_ & _ & ->). reflexivity.
  - cbn [b2a_base64 is_ascii].
    destruct (second_facts x y) as (Hs1 & _).
    destruct (third_facts y z) as (Hs2 & _).
    destruct (fourth_facts z) as (Hs3 & _).
    destruct (b2a_facts _ (first_facts x)) as (_ & _ & ->).
    destruct (b2a_facts _ Hs1) as (_ & _ & ->).
    destruct (b2a_facts _ Hs2) as (_ & _ & ->).
    destruct (b2a_facts _ Hs3) as (_ & _ & ->).
    rewrite IH. reflexivity.
Qed.

(** [base64.b64decode(base64.b64encode(bs).decode("utf-8")) == bs]. *)
Lemma b64decode_b64encode (bs : list byte) :
  b64decode (b64encode bs) = Ok bs.
Proof.
  unfold b64decode, b64encode, a2b_base64.
  rewrite is_ascii_b2a. apply (a2b_loop_b2a bs []).
Qed.


End Base64Facts.

(** ** The derived key is never empty *)

Section HashFacts.






Lemma hash_pin_encoded_salt (pin : string) (raw : list byte) :
  Auth._hash_pin pin (JStr (Base64.b64encode raw)) = Ok (digest_of_pin pin raw).
Proof.
  unfold Auth._hash_pin, py_b64decode, digest_of_pin.
  rewrite b64decode_b64encode. cbn [rbind]. reflexivity.
Qed.


(** HMAC pads a short key with zero bytes, so zero bytes at the end of
    a key that stays within the block change nothing. *)
Lemma block_key_trailing_zeros (key : list byte) (n : nat) :
  (length key + n <= 64)%nat ->
  Hmac.block_key (key ++ repeat Byte.x00 n) = Hmac.block_key key.
Proof.
  intros Hlen. unfold Hmac.block_key.
  assert (H1 : Nat.ltb 64 (length (key ++ repeat Byte.x00 n)) = false).
  { apply Nat.ltb_ge. rewrite length_app, repeat_length. exact Hlen. }
  assert (H2 : Nat.ltb 64 (length key) = false) by (apply Nat.ltb_ge; lia).
  rewrite H1, H2, length_app, repeat_length, <- app_assoc, <- repeat_app.
  f_equal. f_equal. lia.
Qed.

Lemma hmac_same_block_key (k1 k2 msg : list byte) :
  Hmac.block_key k1 = Hmac.block_key k2 ->
  Hmac.hmac_sha256 k1 msg = Hmac.hmac_sha256 k2 msg.
Proof. intros H. unfold Hmac.hmac_sha256. now rewrite H. Qed.

Lemma iter_same_step {A} (f g : A -> A) (n : N) (x : A) :
  (forall y, f y = g y) -> N.iter n f x = N.iter n g x.
Proof.
  intros Hfg. revert x. induction n as [|n IH] using N.peano_ind; intros x.
  - reflexivity.
  - rewrite !N.iter_succ, IH. apply Hfg.
Qed.

Lemma pbkdf2_same_block_key (p1 p2 salt : list byte) (iterations : N) :
  Hmac.block_key p1 = Hmac.block_key p2 ->
  Hmac.pbkdf2_hmac_sha256 p1 salt iterations =
  Hmac.pbkdf2_hmac_sha256 p2 salt iterations.
Proof.
  intros H. unfold Hmac.pbkdf2_hmac_sha256.
  rewrite (hmac_same_block_key p1 p2 _ H).
  f_equal. apply iter_same_step.
  intros st. unfold Hmac.pbkdf2_step.
  now rewrite (hmac_same_block_key p1 p2 _ H).
Qed.

End HashFacts.

Opaque Hmac.pbkdf2_hmac_sha256.

(** ** The credential store *)

Lemma load_db_eq (w : world) :
  Auth._load_db w = (Ok (loaded (file w)), after_read w).
Proof.
  unfold Auth._load_db, Auth.open_and_load, try_except, after_read.
  destruct (file w); reflexivity.
Qed.

Lemma get_credentials_eq (w : world) (d : gmap string json) :
  loaded (file w) = JObj d ->
  Auth.get_credentials w =
    (Ok (field d "api_key", field d "pin_hash", field d "pin_salt"), after_read w).
Proof.
  intros Hd. unfold Auth.get_credentials, bind.
  rewrite load_db_eq, Hd. reflexivity.
Qed.

Lemma get_credentials_not_dict (w : world) (v : json) (e : exn) :
  loaded (file w) = v ->
  py_get v "api_key" = Raise e ->
  Auth.get_credentials w = (Raise e, after_read w).
Proof.
  intros Hv Hget. unfold Auth.get_credentials, bind.
  rewrite load_db_eq, Hv. unfold lift. rewrite Hget. reflexivity.
Qed.



Lemma clear_credentials_eq (w : world) :
  Auth.clear_credentials w = (Ok tt, after_write (JObj ∅) w).
Proof. reflexivity. Qed.

Lemma verify_pin_eq (pin : string) (w : world) (d : gmap string json) :
  loaded (file w) = JObj d ->
  Auth.verify_pin pin w =
    (if negb (truthy (py_and (field d "pin_hash") (field d "pin_salt")))
     then Ok false
     else rbind (Auth._hash_pin pin (field d "pin_salt"))
            (fun h => Ok (py_eq_str h (field d "pin_hash"))),
     after_read w).
Proof.
  intros Hd. unfold Auth.verify_pin, bind.
  rewrite (get_credentials_eq w d Hd).
  destruct (negb (truthy (py_and (field d "pin_hash") (field d "pin_salt"))));
    [reflexivity|].
  unfold lift, ret. destruct (Auth._hash_pin pin (field d "pin_salt")); reflexivity.
Qed.





(** ** Sample worlds *)

(** ** Loading *)

(** C5, at the input where it fails: a store file that holds a JSON
    array decodes without error, [_load_db] hands the list on, and
    [get_credentials] raises [AttributeError] instead of answering a
    triple. *)
Theorem get_credentials_raises_on_json_array :
  fst (Auth._load_db (world_with (Holds (JArr [])))) = Ok (JArr [])
  /\ fst (Auth.get_credentials (world_with (Holds (JArr [])))) =
       Raise (AttributeError "'list' object has no attribute 'get'").
Proof. split; reflexivity. Qed.

(** [_load_db] itself never raises, whatever the file. *)
Lemma load_db_never_raises (w : world) :
  exists v, fst (Auth._load_db w) = Ok v.
Proof. rewrite load_db_eq. eauto. Qed.

(** For a missing, unreadable or malformed file the loaded dict is
    empty and [get_credentials] answers three times [None]. *)
Lemma load_empty_when_missing_or_corrupt (w : world) :
  (file w = Missing \/ (exists m, file w = Unreadable m) \/ (exists m, file w = Malformed m)) ->
  fst (Auth._load_db w) = Ok (JObj ∅)
  /\ fst (Auth.get_credentials w) = Ok (JNull, JNull, JNull).
Proof.
  intros H.
  assert (Hl : loaded (file w) = JObj ∅).
  { destruct H as [-> | [[m ->] | [m ->]]]; reflexivity. }
  split.
  - rewrite load_db_eq, Hl. reflexivity.
  - rewrite (get_credentials_eq w ∅ Hl). reflexivity.
Qed.

Lemma load_empty_when_missing_or_corrupt_witness :
  (file (world_with Missing) = Missing
   \/ (exists m, file (world_with Missing) = Unreadable m)
   \/ (exists m, file (world_with Missing) = Malformed m))
  /\ fst (Auth._load_db (world_with Missing)) = Ok (JObj ∅)
  /\ fst (Auth.get_credentials (world_with Missing)) = Ok (JNull, JNull, JNull).
Proof.
  split; [left; reflexivity|].
  apply load_empty_when_missing_or_corrupt. left. reflexivity.
Defined.

(** ** Saving *)



(** ** Partial and full replacement of the record *)




(** ** Clearing *)


(** C10: [clear_credentials] writes the empty object over the whole
    file, so a key of the prior content outside the three credential
    fields is gone afterwards. *)
Theorem clear_drops_unrelated_keys
  (w : world) (d : gmap string json) (k : string) (v : json) :
  file w = Holds (JObj d) ->
  d !! k = Some v ->
  k <> "api_key" -> k <> "pin_hash" -> k <> "pin_salt" ->
  exists d' : gmap string json,
    fst (Auth.clear_credentials w) = Ok tt
    /\ file (snd (Auth.clear_credentials w)) = Holds (JObj d')
    /\ d' = ∅
    /\ d' !! k = None.
Proof.
  intros _ _ _ _ _. exists ∅. repeat split.
Qed.

Lemma clear_drops_unrelated_keys_witness :
  (file (world_with (Holds (JObj old_record))) = Holds (JObj old_record)
   /\ old_record !! "theme" = Some (JStr "dark"))
  /\ exists d' : gmap string json,
    fst (Auth.clear_credentials (world_with (Holds (JObj old_record)))) = Ok tt
    /\ file (snd (Auth.clear_credentials (world_with (Holds (JObj old_record))))) =
      Holds (JObj d')
    /\ d' = ∅
    /\ d' !! "theme" = None.
Proof.
  split; [split; [reflexivity | vm_compute; reflexivity]|].
  apply (clear_drops_unrelated_keys (world_with (Holds (JObj old_record)))
           old_record "theme" (JStr "dark"));
    [reflexivity | vm_compute; reflexivity | discriminate | discriminate | discriminate].
Defined.

(** ** Verifying without a hash or a salt *)

(** C9: when the stored record lacks [pin_hash] or [pin_salt], and so
    also when the file is missing or corrupt, [verify_pin] answers
    [False] for every PIN. *)
Theorem verify_pin_false_without_hash_or_salt
  (w : world) (d : gmap string json) (pin : string) :
  loaded (file w) = JObj d ->
  d !! "pin_hash" = None \/ d !! "pin_salt" = None ->
  fst (Auth.verify_pin pin w) = Ok false.
Proof.
  intros Hd Hlack. rewrite (verify_pin_eq pin w d Hd). cbn [fst].
  unfold py_and, field.
  destruct Hlack as [-> | ->]; cbn [default].
  - reflexivity.
  - destruct (truthy (default JNull (d !! "pin_hash"))) eqn:E.
    + reflexivity.
    + rewrite E. reflexivity.
Qed.

Lemma verify_pin_false_without_hash_or_salt_witness :
  (loaded (file (world_with (Holds (JObj key_only)))) = JObj key_only
   /\ key_only !! "pin_hash" = None)
  /\ fst (Auth.verify_pin "4821" (world_with (Holds (JObj key_only)))) = Ok false.
Proof.
  split; [split; [reflexivity | vm_compute; reflexivity]|].
  apply (verify_pin_false_without_hash_or_salt
           (world_with (Holds (JObj key_only))) key_only "4821");
    [reflexivity | left; vm_compute; reflexivity].
Defined.


(** ** The key validator *)

Section ValidatorFacts.
Import AuthGate.
Variable float_of_str : string -> result float.

(** Both cases of the class tests an [except] chain makes. *)
Ltac by_class e :=
  destruct (is_HTTPError e); [reflexivity|];
  destruct (is_RequestException e); reflexivity.

(** [check_api_key_balance] by the outcome of the request: it never
    raises and leaves the world as it was. *)
Lemma check_api_key_balance_eq (key : string) (w : world) :
  check_api_key_balance float_of_str key w =
    (Ok match net w key with
        | Raise e =>
            if is_HTTPError e then (false, 0%float, msg_http_error (response_text_or_str e))
            else if is_RequestException e then (false, 0%float, msg_network_error (exn_str e))
            else (false, 0%float, msg_unexpected_error (exn_str e))
        | Ok r =>
            if (status_code r =? 401)%Z || (status_code r =? 403)%Z
            then (false, 0%float, msg_invalid_key)
            else if (status_code r =? 429)%Z then (false, 0%float, msg_rate_limited)
            else if (400 <=? status_code r)%Z && (status_code r <? 600)%Z
            then (false, 0%float, msg_http_error (text r))
            else match read_amounts float_of_str r with
                 | Ok (total, used) =>
                     (PrimFloat.ltb 0%float (PrimFloat.sub total used),
                      PrimFloat.sub total used, "")
                 | Raise e =>
                     if is_HTTPError e
                     then (false, 0%float, msg_http_error (response_text_or_str e))
                     else if is_RequestException e
                     then (false, 0%float, msg_network_error (exn_str e))
                     else (false, 0%float, msg_unexpected_error (exn_str e))
                 end
        end, w).
Proof.
  unfold check_api_key_balance, try_except, bind, requests_get, lift, ret.
  destruct (net w key) as [r|e].
  2: by_class e.
  destruct ((status_code r =? 401)%Z || (status_code r =? 403)%Z); [reflexivity|].
  destruct (status_code r =? 429)%Z; [reflexivity|].
  unfold raise_for_status.
  destruct (400 <=? status_code r)%Z eqn:H400; cbn [andb].
  - destruct (status_code r <? 500)%Z eqn:H500.
    + assert (H600 : (status_code r <? 600)%Z = true) by lia.
      rewrite H600. reflexivity.
    + assert (H5 : (500 <=? status_code r)%Z = true) by lia.
      rewrite H5. cbn [andb].
      destruct (status_code r <? 600)%Z; [reflexivity|].
      unfold read_amounts.
      destruct (json_body r) as [body|e]; cbn [rbind].
      2: by_class e.
      destruct (py_get_default body "data" (JObj ∅)) as [data|e]; cbn [rbind].
      2: by_class e.
      destruct (py_get_default data "total_credits" (JFloat 0%float)) as [tc|e];
        cbn [rbind].
      2: by_class e.
      destruct (py_float float_of_str tc) as [total|e]; cbn [rbind].
      2: by_class e.
      destruct (py_get_default data "total_usage" (JFloat 0%float)) as [tu|e];
        cbn [rbind].
      2: by_class e.
      destruct (py_float float_of_str tu) as [used|e]; cbn [rbind].
      2: by_class e.
      reflexivity.
  - assert (H5 : (500 <=? status_code r)%Z = false) by lia.
    rewrite H5. cbn [andb].
    unfold read_amounts.
    destruct (json_body r) as [body|e]; cbn [rbind].
    2: by_class e.
    destruct (py_get_default body "data" (JObj ∅)) as [data|e]; cbn [rbind].
    2: by_class e.
    destruct (py_get_default data "total_credits" (JFloat 0%float)) as [tc|e];
      cbn [rbind].
    2: by_class e.
    destruct (py_float float_of_str tc) as [total|e]; cbn [rbind].
    2: by_class e.
    destruct (py_get_default data "total_usage" (JFloat 0%float)) as [tu|e];
      cbn [rbind].
    2: by_class e.
    destruct (py_float float_of_str tu) as [used|e]; cbn [rbind].
    2: by_class e.
    reflexivity.
Qed.

(** What [read_amounts] finds in a body whose [data] object holds
    numbers, absent fields counting as [0.0]. *)
Lemma read_amounts_numeric (r : response) (body data : gmap string json)
      (total used : float) :
  json_body r = Ok (JObj body) ->
  body !! "data" = Some (JObj data) ->
  py_float float_of_str (default (JFloat 0%float) (data !! "total_credits")) = Ok total ->
  py_float float_of_str (default (JFloat 0%float) (data !! "total_usage")) = Ok used ->
  read_amounts float_of_str r = Ok (total, used).
Proof.
  intros Hb Hd Ht Hu. unfold read_amounts.
  rewrite Hb. cbn [rbind py_get_default]. rewrite Hd.
  change (default (JObj ∅) (Some (JObj data))) with (JObj data).
  cbn [rbind py_get_default]. rewrite Ht. cbn [rbind]. rewrite Hu. reflexivity.
Qed.

(** C3, amended: the mapping [check_api_key_balance] makes.  401 and
    403 give the invalid-key message, 429 the rate-limit message, every
    other status from 400 to 599 the HTTP-error message with the body of
    the response; an exception of the [RequestException] family other
    than [HTTPError], raised by the request or while the body is read,
    gives the network-error message; a response of any other status
    (2xx, and also 1xx and 3xx) whose body holds the two amounts gives
    their difference as the balance and [balance > 0] as the verdict;
    any other exception gives the unexpected-error message.  The call
    never raises and has no effect on the world. *)
Theorem check_api_key_balance_mapping (key : string) (w : world) :
  snd (check_api_key_balance float_of_str key w) = w
  /\ (forall r, net w key = Ok r ->
        status_code r = 401%Z \/ status_code r = 403%Z ->
        fst (check_api_key_balance float_of_str key w) =
          Ok (false, 0%float, msg_invalid_key))
  /\ (forall r, net w key = Ok r ->
        status_code r = 429%Z ->
        fst (check_api_key_balance float_of_str key w) =
          Ok (false, 0%float, msg_rate_limited))
  /\ (forall r, net w key = Ok r ->
        (400 <= status_code r < 600)%Z ->
        status_code r <> 401%Z -> status_code r <> 403%Z -> status_code r <> 429%Z ->
        fst (check_api_key_balance float_of_str key w) =
          Ok (false, 0%float, msg_http_error (text r)))
  /\ (forall e, net w key = Raise e ->
        is_RequestException e = true -> is_HTTPError e = false ->
        fst (check_api_key_balance float_of_str key w) =
          Ok (false, 0%float, msg_network_error (exn_str e)))
  /\ (forall e, net w key = Raise e ->
        is_RequestException e = false ->
        fst (check_api_key_balance float_of_str key w) =
          Ok (false, 0%float, msg_unexpected_error (exn_str e)))
  /\ (forall r body data total used, net w key = Ok r ->
        (status_code r < 400 \/ 600 <= status_code r)%Z ->
        json_body r = Ok (JObj body) ->
        body !! "data" = Some (JObj data) ->
        py_float float_of_str (default (JFloat 0%float) (data !! "total_credits")) = Ok total ->
        py_float float_of_str (default (JFloat 0%float) (data !! "total_usage")) = Ok used ->
        fst (check_api_key_balance float_of_str key w) =
          Ok (PrimFloat.ltb 0%float (PrimFloat.sub total used),
              PrimFloat.sub total used, ""))
  /\ (forall r e, net w key = Ok r ->
        (status_code r < 400 \/ 600 <= status_code r)%Z ->
        read_amounts float_of_str r = Raise e ->
        is_RequestException e = true -> is_HTTPError e = false ->
        fst (check_api_key_balance float_of_str key w) =
          Ok (false, 0%float, msg_network_error (exn_str e)))
  /\ (forall r e, net w key = Ok r ->
        (status_code r < 400 \/ 600 <= status_code r)%Z ->
        read_amounts float_of_str r = Raise e ->
        is_RequestException e = false ->
        fst (check_api_key_balance float_of_str key w) =
          Ok (false, 0%float, msg_unexpected_error (exn_str e))).
Proof.
  rewrite check_api_key_balance_eq. cbn [fst snd].
  split; [reflexivity|].
  split.
  { intros r -> [H|H]; rewrite H; reflexivity. }
  split.
  { intros r -> H. rewrite H. reflexivity. }
  split.
  { intros r -> [Hlo Hhi] H1 H3 H9.
    apply Z.eqb_neq in H1, H3, H9. rewrite H1, H3, H9. cbn [orb].
    assert (Ha : (400 <=? status_code r)%Z = true) by lia.
    assert (Hb : (status_code r <? 600)%Z = true) by lia.
    rewrite Ha, Hb. reflexivity. }
  split.
  { intros e -> Hr Hh. rewrite Hh, Hr. reflexivity. }
  split.
  { intros e -> Hr.
    assert (Hh : is_HTTPError e = false) by (destruct e; try reflexivity; discriminate Hr).
    rewrite Hh, Hr. reflexivity. }
  assert (Hpass : forall r, (status_code r < 400 \/ 600 <= status_code r)%Z ->
            (status_code r =? 401)%Z || (status_code r =? 403)%Z = false
            /\ (status_code r =? 429)%Z = false
            /\ (400 <=? status_code r)%Z && (status_code r <? 600)%Z = false).
  { intros r H. repeat split; lia. }
  split.
  { intros r body data total used -> Hs Hb Hd Ht Hu.
    destruct (Hpass r Hs) as (-> & -> & ->).
    rewrite (read_amounts_numeric r body data total used Hb Hd Ht Hu).
    reflexivity. }
  split.
  { intros r e -> Hs He Hr Hh.
    destruct (Hpass r Hs) as (-> & -> & ->).
    rewrite He, Hh, Hr. reflexivity. }
  { intros r e -> Hs He Hr.
    assert (Hh : is_HTTPError e = false) by (destruct e; try reflexivity; discriminate Hr).
    destruct (Hpass r Hs) as (-> & -> & ->).
    rewrite He, Hh, Hr. reflexivity. }
Qed.

End ValidatorFacts.

(** C3, as stated, fails on a status outside 2xx that is no error
    status: [raise_for_status] lets a 300 pass, and a body with credits
    then makes the key valid instead of giving an HTTP error. *)
Lemma status_300_is_read_as_success :
  fst (AuthGate.check_api_key_balance no_float_of_str "sk-test"
         (world_online Missing
            (Ok {| status_code := 300; text := "Multiple Choices";
                   json_body := Ok (credits_body (JFloat 12.5%float) (JInt 0)) |}))) =
    Ok (true, 12.5%float, "").
Proof. vm_compute. reflexivity. Qed.


(** ** The login card: the format check *)

Section LoginFacts.
Import AuthGate.

Lemma get_credentials_world (w : world) :
  snd (Auth.get_credentials w) = after_read w.
Proof.
  unfold Auth.get_credentials, bind. rewrite load_db_eq.
  unfold lift, ret.
  destruct (py_get (loaded (file w)) "api_key"); [|reflexivity].
  destruct (py_get (loaded (file w)) "pin_hash"); [|reflexivity].
  destruct (py_get (loaded (file w)) "pin_salt"); reflexivity.
Qed.

Lemma verify_pin_world (pin : string) (w : world) :
  snd (Auth.verify_pin pin w) = after_read w.
Proof.
  unfold Auth.verify_pin, bind.
  pose proof (get_credentials_world w) as Hw.
  destruct (Auth.get_credentials w) as [[[[a h] s]|e] w']; cbn [snd] in Hw; subst w';
    [|reflexivity].
  destruct (negb (truthy (py_and h s))); [reflexivity|].
  unfold lift, ret. destruct (Auth._hash_pin pin s); reflexivity.
Qed.

Lemma state_of_set_msg (t : text_value) (c : card) :
  state_of (set_msg t c) = state_of c.
Proof. reflexivity. Qed.

(** C4, amended: [on_login_click] strips the text of the PIN field and
    rejects it on the spot, with the format message, the world untouched
    and the state of the gate unchanged, when what is left is not four
    characters that are digits for [str.isdigit]; a text that passes
    this test is taken to [verify_pin], which reads the store. *)
Theorem login_checks_format_before_the_store (st : app) :
  (passes_format_check (submitted_pin (ui st)) = false ->
     on_login_click st =
       (Ok tt, {| ui := set_msg (Plain msg_invalid_format) (ui st); env := env st |})
     /\ state_of (ui (snd (on_login_click st))) = state_of (ui st)
     /\ env (snd (on_login_click st)) = env st)
  /\ (passes_format_check (submitted_pin (ui st)) = true ->
        exists rest,
          accesses (env (snd (on_login_click st))) =
            (accesses (env st) ++ OpenedForRead :: rest)%list).
Proof.
  unfold passes_format_check, submitted_pin. split.
  - intros Hbad.
    assert (Heq : on_login_click st =
              (Ok tt, {| ui := set_msg (Plain msg_invalid_format) (ui st);
                         env := env st |})).
    { unfold on_login_click, bind, get_ui.
      rewrite <- negb_andb, Hbad. reflexivity. }
    rewrite Heq. repeat split.
  - intros Hgood.
    unfold on_login_click, bind, get_ui.
    rewrite <- negb_andb, Hgood. cbn [negb].
    unfold in_env at 1. cbn [env ui].
    pose proof (verify_pin_world
                  (PyStr.strip (or_empty (pin_tf_value (ui st)))) (env st)) as Hw.
    destruct (Auth.verify_pin (PyStr.strip (or_empty (pin_tf_value (ui st)))) (env st))
      as [[ok|e] w']; cbn [snd] in Hw; subst w'.
    + destruct ok; cbn [negb].
      * unfold in_env. cbn [env ui].
        pose proof (get_credentials_world (after_read (env st))) as Hw2.
        destruct (Auth.get_credentials (after_read (env st)))
          as [[[[a h] s]|e] w'']; cbn [snd] in Hw2; subst w''.
        -- exists [OpenedForRead]. cbn. now rewrite <- app_assoc.
        -- exists [OpenedForRead]. cbn. now rewrite <- app_assoc.
      * exists []. reflexivity.
    + exists []. reflexivity.
Qed.

End LoginFacts.

(** The two submissions the specification names are rejected. *)
Example login_rejects_12a4 :
  AuthGate.on_login_click (pin_entry_with "12a4") =
    (Ok tt, {| AuthGate.ui :=
                 AuthGate.set_msg (AuthGate.Plain AuthGate.msg_invalid_format)
                   (AuthGate.ui (pin_entry_with "12a4"));
               AuthGate.env := AuthGate.env (pin_entry_with "12a4") |}).
Proof. vm_compute. reflexivity. Qed.

Example login_rejects_123 :
  AuthGate.on_login_click (pin_entry_with "123") =
    (Ok tt, {| AuthGate.ui :=
                 AuthGate.set_msg (AuthGate.Plain AuthGate.msg_invalid_format)
                   (AuthGate.ui (pin_entry_with "123"));
               AuthGate.env := AuthGate.env (pin_entry_with "123") |}).
Proof. vm_compute. reflexivity. Qed.

(** C4, as stated, fails: four fullwidth digits are not four ASCII
    digits, yet they pass the check, [verify_pin] reads the store and
    the answer is the wrong-PIN message; so does a PIN typed with a
    space before it. *)
Lemma login_takes_non_ascii_digits_to_the_store :
  four_ascii_digits "１２３４" = false
  /\ AuthGate.state_of (AuthGate.ui (pin_entry_with "１２３４")) = AuthGate.PIN_ENTRY
  /\ fst (AuthGate.on_login_click (pin_entry_with "１２３４")) = Ok tt
  /\ AuthGate.msg_value (AuthGate.ui (snd (AuthGate.on_login_click (pin_entry_with "１２３４")))) =
       AuthGate.Plain AuthGate.msg_wrong_pin
  /\ accesses (AuthGate.env (snd (AuthGate.on_login_click (pin_entry_with "１２３４")))) =
       [OpenedForRead]
  /\ four_ascii_digits " 1234" = false
  /\ accesses (AuthGate.env (snd (AuthGate.on_login_click (pin_entry_with " 1234")))) =
       [OpenedForRead].
Proof. vm_compute. repeat split. Qed.

(** ** The login card: checking a key *)


Section CheckFacts.
Import AuthGate.
Variable float_of_str : string -> result float.

Lemma check_api_key_balance_total (key : string) (w : world) :
  exists ok balance err,
    check_api_key_balance float_of_str key w = (Ok (ok, balance, err), w).
Proof.
  rewrite check_api_key_balance_eq.
  match goal with |- context [Ok ?x] => destruct x as [[ok balance] err] end.
  eauto.
Qed.





End CheckFacts.


(** ** Deriving, then verifying *)





(** An empty salt is read as no salt: whatever digest is stored beside
    it, no PIN is accepted. *)
Lemma verify_pin_false_with_empty_salt
      (w : world) (d : gmap string json) (pin : string) :
  loaded (file w) = JObj d ->
  d !! "pin_salt" = Some (JStr "") ->
  fst (Auth.verify_pin pin w) = Ok false.
Proof.
  intros Hd Hsalt. rewrite (verify_pin_eq pin w d Hd). cbn [fst].
  assert (Hfs : field d "pin_salt" = JStr "")
    by (unfold field; now rewrite Hsalt).
  rewrite Hfs. unfold py_and.
  destruct (truthy (field d "pin_hash")) eqn:E.
  - reflexivity.
  - rewrite E. reflexivity.
Qed.

(** ** The gate from start to unlock *)

Section GateFacts.
Import AuthGate.

(** The card starts in PIN_ENTRY when the store holds a key, and in
    FIRST_RUN otherwise. *)
Theorem initial_state_follows_the_stored_key (w : world) (d : gmap string json) :
  loaded (file w) = JObj d ->
  exists c,
    fst (make_login_card w) = Ok c
    /\ state_of c = if truthy (field d "api_key") then PIN_ENTRY else FIRST_RUN.
Proof.
  intros Hd. unfold make_login_card, bind.
  rewrite (get_credentials_eq w d Hd).
  eexists. split; [reflexivity|].
  destruct (truthy (field d "api_key")); reflexivity.
Qed.

Lemma initial_state_follows_the_stored_key_witness :
  loaded (file (world_with Missing)) = JObj ∅
  /\ exists c,
    fst (make_login_card (world_with Missing)) = Ok c
    /\ state_of c = if truthy (field ∅ "api_key") then PIN_ENTRY else FIRST_RUN.
Proof.
  split; [reflexivity|].
  apply (initial_state_follows_the_stored_key (world_with Missing) ∅). reflexivity.
Defined.


(** [on_login_click] when [verify_pin] answers [False]. *)
Lemma on_login_click_wrong_pin (st : app) :
  passes_format_check (submitted_pin (ui st)) = true ->
  fst (Auth.verify_pin (submitted_pin (ui st)) (env st)) = Ok false ->
  on_login_click st =
    (Ok tt, {| ui := set_msg (Plain msg_wrong_pin) (ui st);
               env := after_read (env st) |}).
Proof.
  intros Hfmt Hv.
  unfold passes_format_check in Hfmt.
  unfold on_login_click, bind, get_ui.
  fold (submitted_pin (ui st)).
  rewrite <- negb_andb, Hfmt. cbn [negb].
  unfold in_env at 1. cbn [env ui].
  pose proof (verify_pin_world (submitted_pin (ui st)) (env st)) as Hw.
  destruct (Auth.verify_pin (submitted_pin (ui st)) (env st)) as [r w'].
  cbn [fst snd] in Hv, Hw. subst r w'. reflexivity.
Qed.



End GateFacts.

(** ** From the issued PIN to the unlocked key *)

Section UnlockFacts.
Import AuthGate.
Variable float_of_str : string -> result float.


End UnlockFacts.


(** ** The validator on sample responses *)

Example check_401_is_invalid_key :
  fst (AuthGate.check_api_key_balance no_float_of_str "sk-test"
         (world_online Missing
            (Ok {| status_code := 401; text := "Unauthorized";
                   json_body := Raise (RequestException "Expecting value") |}))) =
    Ok (false, 0%float, AuthGate.msg_invalid_key).
Proof. vm_compute. reflexivity. Qed.

Example check_500_is_http_error :
  fst (AuthGate.check_api_key_balance no_float_of_str "sk-test"
         (world_online Missing
            (Ok {| status_code := 500; text := "upstream down";
                   json_body := Raise (RequestException "Expecting value") |}))) =
    Ok (false, 0%float, AuthGate.msg_http_error "upstream down").
Proof. vm_compute. reflexivity. Qed.

Example check_offline_is_network_error :
  fst (AuthGate.check_api_key_balance no_float_of_str "sk-test" (world_with Missing)) =
    Ok (false, 0%float, AuthGate.msg_network_error "Connection refused").
Proof. vm_compute. reflexivity. Qed.

Example check_200_with_credits :
  fst (AuthGate.check_api_key_balance no_float_of_str "sk-test"
         (world_online Missing (Ok (ok_response (JFloat 12.5%float) (JFloat 2.5%float))))) =
    Ok (true, 10%float, "").
Proof. vm_compute. reflexivity. Qed.

Example check_200_spent :
  fst (AuthGate.check_api_key_balance no_float_of_str "sk-test"
         (world_online Missing (Ok (ok_response (JInt 3) (JInt 3))))) =
    Ok (false, 0%float, "").
Proof. vm_compute. reflexivity. Qed.

Example check_200_with_a_list_is_unexpected :
  fst (AuthGate.check_api_key_balance no_float_of_str "sk-test"
         (world_online Missing
            (Ok {| status_code := 200; text := "[]"; json_body := Ok (JArr []) |}))) =
    Ok (false, 0%float,
        AuthGate.msg_unexpected_error "'list' object has no attribute 'get'").
Proof. vm_compute. reflexivity. Qed.


(* ===================================================================== *)
(** * Part IV: further properties of the code                             *)
(* ===================================================================== *)

(** ** The hasher *)

Section HasherFacts.
Local Open Scope nat_scope.

Lemma of_string_append (s t : string) :
  Bytes.of_string (s +:+ t) = (Bytes.of_string s ++ Bytes.of_string t)%list.
Proof.
  unfold Bytes.of_string, list_byte_of_string.
  induction s as [|c s IH]; [reflexivity|].
  simpl. f_equal. exact IH.
Qed.

Lemma of_string_length (s : string) :
  length (Bytes.of_string s) = String.length s.
Proof.
  unfold Bytes.of_string, list_byte_of_string.
  induction s as [|c s IH]; [reflexivity|]. simpl. f_equal. exact IH.
Qed.

Lemma of_string_nuls (n : nat) : Bytes.of_string (nuls n) = repeat Byte.x00 n.
Proof.
  unfold Bytes.of_string, list_byte_of_string, nuls.
  induction n as [|n IH]; [reflexivity|]. simpl. f_equal. exact IH.
Qed.

(** [_hash_pin] does not tell a PIN from the same PIN followed by NUL
    characters, as long as the encoded text stays within the 64 bytes of
    an HMAC block: the digests are equal, and so [verify_pin] gives the
    same answer for both. *)
Theorem hash_pin_ignores_trailing_nuls (pin : string) (n : nat) :
  String.length pin + n <= 64 ->
  (forall salt, Auth._hash_pin (pin +:+ nuls n) salt = Auth._hash_pin pin salt)
  /\ (forall w, fst (Auth.verify_pin (pin +:+ nuls n) w) = fst (Auth.verify_pin pin w)).
Proof.
  intros Hlen.
  assert (Hhash : forall salt,
             Auth._hash_pin (pin +:+ nuls n) salt = Auth._hash_pin pin salt).
  { intros salt. unfold Auth._hash_pin.
    destruct (py_b64decode salt) as [raw|e]; cbn [rbind]; [|reflexivity].
    rewrite of_string_append, of_string_nuls.
    rewrite (pbkdf2_same_block_key _ (Bytes.of_string pin)); [reflexivity|].
    apply block_key_trailing_zeros. now rewrite of_string_length. }
  split; [exact Hhash|].
  intros w. unfold Auth.verify_pin, bind.
  destruct (Auth.get_credentials w) as [[[[a h] s]|e] w']; [|reflexivity].
  destruct (negb (truthy (py_and h s))); [reflexivity|].
  rewrite Hhash. reflexivity.
Qed.

Lemma hash_pin_ignores_trailing_nuls_witness :
  String.length "4821" + 1 <= 64
  /\ (forall salt, Auth._hash_pin ("4821" +:+ nuls 1) salt = Auth._hash_pin "4821" salt)
  /\ (forall w, fst (Auth.verify_pin ("4821" +:+ nuls 1) w) = fst (Auth.verify_pin "4821" w)).
Proof.
  split; [cbn; lia|].
  apply (hash_pin_ignores_trailing_nuls "4821" 1). cbn; lia.
Defined.

End HasherFacts.

(** ** The store: reading, and what the writes compose to *)

Section StoreFacts.

(** [get_credentials] and [verify_pin] only read: whether they answer
    or raise, the file, the entropy source and the network are as
    before, and the one access made is a read. *)
Theorem reads_leave_the_store_alone (w : world) (pin : string) :
  file (snd (Auth.get_credentials w)) = file w
  /\ accesses (snd (Auth.get_credentials w)) = (accesses w ++ [OpenedForRead])%list
  /\ drawn (snd (Auth.get_credentials w)) = drawn w
  /\ file (snd (Auth.verify_pin pin w)) = file w
  /\ accesses (snd (Auth.verify_pin pin w)) = (accesses w ++ [OpenedForRead])%list
  /\ drawn (snd (Auth.verify_pin pin w)) = drawn w.
Proof.
  rewrite get_credentials_world, verify_pin_world. repeat split.
Qed.

(** A stored salt that [base64.b64decode] refuses makes [verify_pin]
    raise that error instead of answering [False]. *)
Theorem verify_pin_raises_on_undecodable_salt
      (w : world) (d : gmap string json) (pin : string) (e : exn) :
  loaded (file w) = JObj d ->
  truthy (field d "pin_hash") = true ->
  truthy (field d "pin_salt") = true ->
  py_b64decode (field d "pin_salt") = Raise e ->
  fst (Auth.verify_pin pin w) = Raise e.
Proof.
  intros Hd Hh Hs He. rewrite (verify_pin_eq pin w d Hd). cbn [fst].
  unfold py_and. rewrite Hh, Hs. cbn [negb].
  unfold Auth._hash_pin. rewrite He. reflexivity.
Qed.

Lemma verify_pin_raises_on_undecodable_salt_witness :
  (loaded (file (world_with (Holds (JObj broken_salt)))) = JObj broken_salt
   /\ truthy (field broken_salt "pin_hash") = true
   /\ truthy (field broken_salt "pin_salt") = true
   /\ py_b64decode (field broken_salt "pin_salt") =
        Raise (BinasciiError "Invalid base64-encoded string: number of data characters cannot be 1 more than a multiple of 4"))
  /\ fst (Auth.verify_pin "4821" (world_with (Holds (JObj broken_salt)))) =
       Raise (BinasciiError "Invalid base64-encoded string: number of data characters cannot be 1 more than a multiple of 4").
Proof.
  split; [repeat split; vm_compute; reflexivity|].
  apply (verify_pin_raises_on_undecodable_salt
           (world_with (Holds (JObj broken_salt))) broken_salt "4821");
    [reflexivity | vm_compute; reflexivity | vm_compute; reflexivity
     | vm_compute; reflexivity].
Defined.





End StoreFacts.

(** ** The sizes of what is stored *)

Section SizeFacts.
Local Open Scope nat_scope.





End SizeFacts.

(** ** The login card: edges of the handlers *)

Section CardFacts.
Import AuthGate.
Variable float_of_str : string -> result float.

(** With nothing but blanks in the key field, [on_check_click] asks for
    a key and does nothing else: the validator is not called, nothing is
    drawn or stored, and the state of the gate is as before. *)
Theorem check_click_with_blank_key (st : app) :
  submitted_key (ui st) = "" ->
  on_check_click float_of_str st =
    (Ok tt, {| ui := set_msg (Plain msg_enter_key) (ui st); env := env st |})
  /\ state_of (ui (snd (on_check_click float_of_str st))) = state_of (ui st)
  /\ progress_visible (ui (snd (on_check_click float_of_str st))) =
       progress_visible (ui st).
Proof.
  intros Hblank.
  assert (Heq : on_check_click float_of_str st =
            (Ok tt, {| ui := set_msg (Plain msg_enter_key) (ui st); env := env st |})).
  { unfold on_check_click, bind, get_ui.
    fold (submitted_key (ui st)). rewrite Hblank. reflexivity. }
  rewrite Heq. repeat split.
Qed.

(** A PIN that passes the format check and that [verify_pin] turns down
    leaves the gate where it was, with the wrong-PIN message: nothing is
    handed over and the file is not written. *)
Theorem login_click_with_wrong_pin (st : app) :
  passes_format_check (submitted_pin (ui st)) = true ->
  fst (Auth.verify_pin (submitted_pin (ui st)) (env st)) = Ok false ->
  fst (on_login_click st) = Ok tt
  /\ msg_value (ui (snd (on_login_click st))) = Plain msg_wrong_pin
  /\ state_of (ui (snd (on_login_click st))) = state_of (ui st)
  /\ handed_over (ui (snd (on_login_click st))) = handed_over (ui st)
  /\ file (env (snd (on_login_click st))) = file (env st)
  /\ accesses (env (snd (on_login_click st))) =
       (accesses (env st) ++ [OpenedForRead])%list.
Proof.
  intros Hfmt Hv. rewrite (on_login_click_wrong_pin st Hfmt Hv). repeat split.
Qed.

End CardFacts.

Lemma check_click_with_blank_key_witness :
  submitted_key (AuthGate.ui (first_run_with "   " (Raise (RequestException "down")))) = ""
  /\ AuthGate.on_check_click no_float_of_str
       (first_run_with "   " (Raise (RequestException "down"))) =
       (Ok tt,
        {| AuthGate.ui :=
             AuthGate.set_msg (AuthGate.Plain AuthGate.msg_enter_key)
               (AuthGate.ui (first_run_with "   " (Raise (RequestException "down"))));
           AuthGate.env :=
             AuthGate.env (first_run_with "   " (Raise (RequestException "down"))) |})
  /\ AuthGate.state_of
       (AuthGate.ui
          (snd (AuthGate.on_check_click no_float_of_str
                  (first_run_with "   " (Raise (RequestException "down")))))) =
       AuthGate.state_of
         (AuthGate.ui (first_run_with "   " (Raise (RequestException "down"))))
  /\ AuthGate.progress_visible
       (AuthGate.ui
          (snd (AuthGate.on_check_click no_float_of_str
                  (first_run_with "   " (Raise (RequestException "down")))))) =
       AuthGate.progress_visible
         (AuthGate.ui (first_run_with "   " (Raise (RequestException "down")))).
Proof.
  split; [vm_compute; reflexivity|].
  apply (check_click_with_blank_key no_float_of_str
           (first_run_with "   " (Raise (RequestException "down")))).
  vm_compute; reflexivity.
Defined.

Lemma login_click_with_wrong_pin_witness :
  (passes_format_check (submitted_pin (AuthGate.ui (pin_entry_with "4821"))) = true
   /\ fst (Auth.verify_pin (submitted_pin (AuthGate.ui (pin_entry_with "4821")))
             (AuthGate.env (pin_entry_with "4821"))) = Ok false)
  /\ fst (AuthGate.on_login_click (pin_entry_with "4821")) = Ok tt
  /\ AuthGate.msg_value (AuthGate.ui (snd (AuthGate.on_login_click (pin_entry_with "4821")))) =
       AuthGate.Plain AuthGate.msg_wrong_pin
  /\ AuthGate.state_of (AuthGate.ui (snd (AuthGate.on_login_click (pin_entry_with "4821")))) =
       AuthGate.state_of (AuthGate.ui (pin_entry_with "4821"))
  /\ AuthGate.handed_over (AuthGate.ui (snd (AuthGate.on_login_click (pin_entry_with "4821")))) =
       AuthGate.handed_over (AuthGate.ui (pin_entry_with "4821"))
  /\ file (AuthGate.env (snd (AuthGate.on_login_click (pin_entry_with "4821")))) =
       file (AuthGate.env (pin_entry_with "4821"))
  /\ accesses (AuthGate.env (snd (AuthGate.on_login_click (pin_entry_with "4821")))) =
       (accesses (AuthGate.env (pin_entry_with "4821")) ++ [OpenedForRead])%list.
Proof.
  split; [split; vm_compute; reflexivity|].
  apply (login_click_with_wrong_pin (pin_entry_with "4821"));
    vm_compute; reflexivity.
Defined.


(** ** The login card: what every handler keeps *)

Section HandlerFacts.
Import AuthGate.
Variable float_of_str : string -> result float.

Lemma in_env_ui {A} (m : M world A) (st : app) :
  ui (snd (in_env m st)) = ui st.
Proof. unfold in_env. destruct (m (env st)); reflexivity. Qed.

Lemma on_check_click_handed_over (st : app) :
  handed_over (ui (snd (on_check_click float_of_str st))) = handed_over (ui st).
Proof.
  unfold on_check_click, bind, get_ui.
  destruct (String.eqb (PyStr.strip (or_empty (api_key_tf_value (ui st)))) "");
    [reflexivity|].
  unfold modify_ui at 1. unfold in_env at 1. cbn [env ui].
  destruct (check_api_key_balance_total float_of_str
              (PyStr.strip (or_empty (api_key_tf_value (ui st)))) (env st))
    as (ok & balance & err & ->).
  unfold modify_ui at 1. cbn [env ui].
  destruct ok; cbn [negb]; [|reflexivity].
  unfold in_env at 1, Secrets.randbelow. cbn [env ui N.eqb].
  unfold in_env at 1. cbn [env ui].
  destruct (Auth.save_credentials _ _ _) as [[[]|e] w']; reflexivity.
Qed.

Lemma on_login_click_cases (st : app) :
  handed_over (ui (snd (on_login_click st))) = handed_over (ui st)
  \/ exists k h s,
       passes_format_check (submitted_pin (ui st)) = true
       /\ fst (Auth.verify_pin (submitted_pin (ui st)) (env st)) = Ok true
       /\ fst (Auth.get_credentials (after_read (env st))) = Ok (k, h, s)
       /\ handed_over (ui (snd (on_login_click st))) = (handed_over (ui st) ++ [k])%list.
Proof.
  destruct (passes_format_check (submitted_pin (ui st))) eqn:Hfmt.
  2:{ left. unfold passes_format_check, submitted_pin in Hfmt.
      unfold on_login_click, bind, get_ui.
      rewrite <- negb_andb, Hfmt. reflexivity. }
  remember (on_login_click st) as res eqn:Hres.
  revert Hres.
  unfold passes_format_check, submitted_pin in Hfmt.
  unfold on_login_click, bind, get_ui.
  rewrite <- negb_andb, Hfmt. cbn [negb].
  unfold in_env at 1. cbn [env ui].
  pose proof (verify_pin_world (submitted_pin (ui st)) (env st)) as Hw.
  unfold submitted_pin in Hw |- *.
  destruct (Auth.verify_pin (PyStr.strip (or_empty (pin_tf_value (ui st)))) (env st))
    as [[ok|e] w'] eqn:Hv; cbn [snd] in Hw; subst w'.
  - destruct ok; cbn [negb]; [|intros ->; left; reflexivity].
    unfold in_env. cbn [env ui].
    destruct (Auth.get_credentials (after_read (env st))) as [[[[k h] s]|e] w''] eqn:Hg;
      intros ->.
    + right. exists k, h, s.
      split; [reflexivity|]. split; [reflexivity|]. split; reflexivity.
    + left. reflexivity.
  - intros ->. left. reflexivity.
Qed.

(** No handler hands a key to the host but [on_login_click], and it
    does so only for a text that passed the format check and that
    [verify_pin] accepted; the key handed over is the one the store
    holds then. *)
Theorem only_a_verified_pin_hands_over (st : app) :
  handed_over (ui (snd (on_check_click float_of_str st))) = handed_over (ui st)
  /\ handed_over (ui (snd (on_reset_click st))) = handed_over (ui st)
  /\ handed_over (ui (snd (on_dialog_ok st))) = handed_over (ui st)
  /\ (handed_over (ui (snd (on_login_click st))) = handed_over (ui st)
      \/ exists k h s,
           passes_format_check (submitted_pin (ui st)) = true
           /\ fst (Auth.verify_pin (submitted_pin (ui st)) (env st)) = Ok true
           /\ fst (Auth.get_credentials (after_read (env st))) = Ok (k, h, s)
           /\ handed_over (ui (snd (on_login_click st))) =
                (handed_over (ui st) ++ [k])%list).
Proof.
  split; [apply on_check_click_handed_over|].
  split; [reflexivity|]. split; [reflexivity|].
  apply on_login_click_cases.
Qed.



End HandlerFacts.


(** ** The PIN texts of [on_check_click] *)

Section PinTexts.
Local Open Scope N_scope.

Local Ltac div_lia := zify; Z.to_euclidean_division_equations; lia.

Lemma pin_digits_all (n : N) : n < 10000 -> pin_digits_ok n = true.
Proof.
  apply (forall_below_N 10000 pin_digits_ok). vm_compute. reflexivity.
Qed.

Lemma format_04d_digits (n : N) :
  n < 10000 ->
  PyStr.format_04d n =
    four_digits (n / 1000) ((n / 100) mod 10) ((n / 10) mod 10) (n mod 10).
Proof.
  intros H. apply String.eqb_eq. exact (pin_digits_all n H).
Qed.

Lemma digit_char_inj (a b : N) :
  a < 10 -> b < 10 -> digit_char a = digit_char b -> a = b.
Proof.
  intros Ha Hb H. unfold digit_char in H.
  apply (f_equal N_of_ascii) in H.
  rewrite !N_ascii_embedding in H by lia. lia.
Qed.

Lemma digit_char_of_ascii (c : ascii) :
  ascii_digit c = true -> c = digit_char (N_of_ascii c - 48) /\ N_of_ascii c - 48 < 10.
Proof.
  unfold ascii_digit, digit_char. intros H.
  apply andb_prop in H. destruct H as [H1 H2].
  apply N.leb_le in H1. apply N.leb_le in H2.
  split; [|lia].
  replace (48 + (N_of_ascii c - 48)) with (N_of_ascii c) by lia.
  symmetry. apply ascii_N_embedding.
Qed.

(** [f"{n:04d}"] for the draws [0 .. 9999] of
    [secrets.randbelow(10000)]: two different draws give two different
    PIN texts, and every text of four characters from ['0'] to ['9'] is
    the PIN of some draw. *)
Theorem pin_texts_are_the_four_digit_texts :
  (forall n m : N,
      n < 10000 -> m < 10000 -> PyStr.format_04d n = PyStr.format_04d m -> n = m)
  /\ (forall s : string,
        four_ascii_digits s = true ->
        exists n : N, n < 10000 /\ PyStr.format_04d n = s).
Proof.
  split.
  - intros n m Hn Hm H.
    rewrite (format_04d_digits n Hn), (format_04d_digits m Hm) in H.
    unfold four_digits in H. injection H as H1 H2 H3 H4.
    apply digit_char_inj in H1; [|div_lia..].
    apply digit_char_inj in H2; [|div_lia..].
    apply digit_char_inj in H3; [|div_lia..].
    apply digit_char_inj in H4; [|div_lia..].
    div_lia.
  - intros s H. unfold four_ascii_digits in H.
    apply andb_prop in H. destruct H as [Hlen Hall].
    apply Nat.eqb_eq in Hlen.
    destruct s as [|c1 [|c2 [|c3 [|c4 [|c5 s]]]]]; try discriminate Hlen.
    cbn [list_ascii_of_string forallb] in Hall.
    apply andb_prop in Hall. destruct Hall as [D1 Hall].
    apply andb_prop in Hall. destruct Hall as [D2 Hall].
    apply andb_prop in Hall. destruct Hall as [D3 Hall].
    apply andb_prop in Hall. destruct Hall as [D4 _].
    apply digit_char_of_ascii in D1, D2, D3, D4.
    destruct D1 as [E1 B1], D2 as [E2 B2], D3 as [E3 B3], D4 as [E4 B4].
    set (a := N_of_ascii c1 - 48) in *. set (b := N_of_ascii c2 - 48) in *.
    set (c := N_of_ascii c3 - 48) in *. set (d := N_of_ascii c4 - 48) in *.
    exists (1000 * a + 100 * b + 10 * c + d).
    split; [lia|].
    rewrite format_04d_digits by lia.
    rewrite E1, E2, E3, E4. unfold four_digits.
    replace ((1000 * a + 100 * b + 10 * c + d) / 1000) with a by div_lia.
    replace (((1000 * a + 100 * b + 10 * c + d) / 100) mod 10) with b by div_lia.
    replace (((1000 * a + 100 * b + 10 * c + d) / 10) mod 10) with c by div_lia.
    replace ((1000 * a + 100 * b + 10 * c + d) mod 10) with d by div_lia.
    reflexivity.
Qed.

End PinTexts.

(** ** The model selector: searching *)

Section SelectorFacts.
Import Components.
Variable lower : string -> string.

Lemma append_nil (s : string) : "" +:+ s = s.
Proof. reflexivity. Qed.

Lemma append_cons (c : ascii) (p s : string) : String c p +:+ s = String c (p +:+ s).
Proof. reflexivity. Qed.

Lemma prefix_app (a t : string) :
  String.prefix a t = true <-> exists q, t = a +:+ q.
Proof.
  revert t. induction a as [|c a IH]; intros t.
  - split; [intros _; exists t; reflexivity | intros _; destruct t; reflexivity].
  - destruct t as [|d t]; cbn [String.prefix].
    + split; [discriminate | intros [q Hq]; discriminate].
    + destruct (Ascii.ascii_dec c d) as [->|Hne].
      * rewrite IH. split; intros [q Hq]; exists q.
        -- now rewrite Hq.
        -- rewrite append_cons in Hq. now injection Hq.
      * split; [discriminate|].
        intros [q Hq]. rewrite append_cons in Hq. injection Hq. congruence.
Qed.

Lemma contains_app (a t : string) :
  contains a t = true <-> exists p q, t = p +:+ a +:+ q.
Proof.
  induction t as [|d t IH]; cbn [contains].
  - rewrite orb_false_r, prefix_app. split.
    + intros [q Hq]. exists "", q. exact Hq.
    + intros (p & q & H). destruct p as [|c p].
      * exists q. exact H.
      * rewrite append_cons in H. discriminate.
  - rewrite orb_true_iff, prefix_app, IH. split.
    + intros [[q Hq]|(p & q & H)].
      * exists "", q. exact Hq.
      * exists (String d p), q. rewrite append_cons. now rewrite H.
    + intros (p & q & H). destruct p as [|c p].
      * left. exists q. exact H.
      * right. rewrite append_cons in H. injection H as _ H. exists p, q. exact H.
Qed.

Lemma string_app_assoc (a b c : string) : (a +:+ b) +:+ c = a +:+ (b +:+ c).
Proof.
  induction a as [|x a IH]; [reflexivity|].
  rewrite !append_cons. f_equal. exact IH.
Qed.

Lemma contains_trans (a b t : string) :
  contains a b = true -> contains b t = true -> contains a t = true.
Proof.
  rewrite !contains_app. intros (p & q & ->) (p' & q' & ->).
  exists (p' +:+ p), (q +:+ q').
  now rewrite !string_app_assoc.
Qed.

Lemma contains_empty (a : string) : contains a "" = true -> a = "".
Proof.
  cbn [contains]. rewrite orb_false_r. destruct a; [reflexivity | discriminate].
Qed.

Lemma matching_options_all_str (st : string) (l : list Option) :
  all_str l = true ->
  matching_options lower st l = Ok (List.filter (shown lower st) l).
Proof.
  induction l as [|o l IH]; intros H; [reflexivity|].
  simpl in H. apply andb_prop in H. destruct H as [Ho Hl].
  apply andb_prop in Ho. destruct Ho as [Hk Ht].
  cbn [matching_options List.filter]. rewrite (IH Hl).
  unfold option_matches, shown.
  destruct (text o); try discriminate Ht.
  destruct (key o); try discriminate Hk.
  cbn [py_lower rbind].
  destruct (contains st (lower s)); cbn [rbind orb]; [reflexivity|].
  destruct (contains st (lower s0)); reflexivity.
Qed.

Lemma filter_sublist {A} (f : A -> bool) (l : list A) :
  List.filter f l `sublist_of` l.
Proof.
  induction l as [|x l IH]; simpl; [constructor|].
  destruct (f x); now constructor.
Qed.

Lemma filter_sublist_mono {A} (f g : A -> bool) (l : list A) :
  (forall x, f x = true -> g x = true) ->
  List.filter f l `sublist_of` List.filter g l.
Proof.
  intros H. induction l as [|x l IH]; simpl; [constructor|].
  destruct (f x) eqn:Hf.
  - rewrite (H x Hf). now constructor.
  - destruct (g x); [now constructor | exact IH].
Qed.

Lemma on_change_shown (self : ModelSelector) (v : string) :
  all_str (all_options self) = true ->
  v <> "" -> lower v <> "" ->
  on_change lower (Some v) self =
    (Ok tt, page_update
              (set_options (List.filter (shown lower (lower v)) (all_options self))
                 (set_search_field_value (Some v) self))).
Proof.
  intros Hall Hv Hl.
  unfold on_change, filter_options. cbn [search_field_value set_search_field_value].
  apply String.eqb_neq in Hv. rewrite Hv.
  apply String.eqb_neq in Hl. rewrite Hl.
  cbn [all_options]. now rewrite matching_options_all_str.
Qed.

(** Over options made of strings, a search for a text that is not empty
    does not raise and shows the options whose lowered text or key holds
    the lowered search text, in the order of [all_options]; that list,
    the selected value and the field are not touched, and the page is
    updated once. *)
Theorem search_shows_the_matching_options (self : ModelSelector) (v : string) :
  all_str (all_options self) = true ->
  v <> "" -> lower v <> "" ->
  fst (on_change lower (Some v) self) = Ok tt
  /\ options (snd (on_change lower (Some v) self)) =
       List.filter (shown lower (lower v)) (all_options self)
  /\ options (snd (on_change lower (Some v) self)) `sublist_of` all_options self
  /\ all_options (snd (on_change lower (Some v) self)) = all_options self
  /\ value (snd (on_change lower (Some v) self)) = value self
  /\ page_updates (snd (on_change lower (Some v) self)) = S (page_updates self).
Proof.
  intros Hall Hv Hl. rewrite (on_change_shown self v Hall Hv Hl).
  cbn [fst snd options all_options value page_updates page_update set_options
       set_search_field_value].
  repeat split. apply filter_sublist.
Qed.

Lemma on_change_frame (self : ModelSelector) (v : option string) :
  all_options (snd (on_change lower v self)) = all_options self
  /\ value (snd (on_change lower v self)) = value self.
Proof.
  unfold on_change, filter_options. cbn [search_field_value set_search_field_value].
  destruct (String.eqb _ ""); [split; reflexivity|].
  cbn [all_options].
  destruct (matching_options _ _ _); split; reflexivity.
Qed.

Lemma edits_frame (vs : list (option string)) (self : ModelSelector) :
  all_options (edits lower vs self) = all_options self
  /\ value (edits lower vs self) = value self.
Proof.
  revert self. induction vs as [|v vs IH]; intros self; [split; reflexivity|].
  unfold edits. cbn [fold_left]. fold (edits lower vs (snd (on_change lower v self))).
  destruct (IH (snd (on_change lower v self))) as [-> ->].
  apply on_change_frame.
Qed.

(** Searching is not cumulative: whatever was typed into the search
    field before, and whether those searches raised or not, emptying
    the field (to [""] or to [None]) shows every option the selector
    was built with again, without raising, and the selected value is
    still the one from before the searches. *)
Theorem clearing_the_search_restores_every_option
    (self : ModelSelector) (vs : list (option string)) :
  fst (on_change lower (Some "") (edits lower vs self)) = Ok tt
  /\ options (snd (on_change lower (Some "") (edits lower vs self))) = all_options self
  /\ value (snd (on_change lower (Some "") (edits lower vs self))) = value self
  /\ fst (on_change lower None (edits lower vs self)) = Ok tt
  /\ options (snd (on_change lower None (edits lower vs self))) = all_options self
  /\ value (snd (on_change lower None (edits lower vs self))) = value self.
Proof.
  destruct (edits_frame vs self) as [Ha Hv].
  unfold on_change, filter_options.
  cbn [search_field_value set_search_field_value String.eqb fst snd options value
       all_options page_update set_options].
  rewrite Ha, Hv. repeat split.
Qed.

Lemma shown_mono (a b : string) (o : Option) :
  contains a b = true -> shown lower b o = true -> shown lower a o = true.
Proof.
  intros Hab. unfold shown.
  destruct (text o); try discriminate. destruct (key o); try discriminate.
  rewrite !orb_true_iff. intros [H|H]; [left|right]; exact (contains_trans _ _ _ Hab H).
Qed.

(** Typing more narrows the list: when the lowered text of one search
    occurs in the lowered text of another, every option the second
    search shows is shown by the first, in the same order. *)
Theorem a_longer_search_shows_no_more (self : ModelSelector) (a b : string) :
  all_str (all_options self) = true ->
  a <> "" -> b <> "" ->
  contains (lower a) (lower b) = true ->
  options (snd (on_change lower (Some b) self))
    `sublist_of` options (snd (on_change lower (Some a) self)).
Proof.
  intros Hall Ha Hb Hab.
  destruct (string_dec (lower a) "") as [Ea|Na].
  - (* the first search shows everything *)
    assert (Hfst : options (snd (on_change lower (Some a) self)) = all_options self).
    { unfold on_change, filter_options. cbn [search_field_value set_search_field_value].
      apply String.eqb_neq in Ha. rewrite Ha, Ea. reflexivity. }
    rewrite Hfst.
    destruct (string_dec (lower b) "") as [Eb|Nb].
    + unfold on_change, filter_options. cbn [search_field_value set_search_field_value].
      apply String.eqb_neq in Hb. rewrite Hb, Eb. reflexivity.
    + rewrite (on_change_shown self b Hall Hb Nb). apply filter_sublist.
  - destruct (string_dec (lower b) "") as [Eb|Nb].
    + rewrite Eb in Hab. apply contains_empty in Hab. contradiction.
    + rewrite (on_change_shown self a Hall Ha Na), (on_change_shown self b Hall Hb Nb).
      cbn [snd options page_update set_options].
      apply filter_sublist_mono. intros o. now apply shown_mono.
Qed.

Lemma option_matches_raises (st : string) (o : Option) :
  (exists b, option_matches lower st o = Ok b)
  \/ exists msg, option_matches lower st o = Raise (AttributeError msg).
Proof.
  unfold option_matches, py_lower, no_attribute.
  destruct (text o); cbn [rbind]; eauto.
  destruct (contains st (lower s)); eauto.
  destruct (key o); cbn [rbind]; eauto.
Qed.

Lemma matching_options_raises (st : string) (l : list Option) (o : Option) :
  In o l -> text o = JNull ->
  exists msg, matching_options lower st l = Raise (AttributeError msg).
Proof.
  intros Hin Ho. induction l as [|x l IH]; [destruct Hin|].
  cbn [matching_options].
  destruct (option_matches_raises st x) as [[b Hb]|[msg Hm]].
  - rewrite Hb. cbn [rbind]. destruct Hin as [->|Hin].
    + exfalso. unfold option_matches, py_lower in Hb.
      rewrite Ho in Hb. discriminate Hb.
    + destruct (IH Hin) as [msg ->]. cbn [rbind]. eauto.
  - rewrite Hm. cbn [rbind]. eauto.
Qed.

(** One option whose text is [None] (a model that came with a null
    name) breaks every search for a text that is not empty: the handler
    raises [AttributeError], the shown options stay as they were and
    the page is not updated. *)
Theorem search_raises_on_an_option_without_text
    (self : ModelSelector) (o : Option) (v : string) :
  In o (all_options self) -> text o = JNull ->
  v <> "" -> lower v <> "" ->
  exists msg,
    on_change lower (Some v) self =
      (Raise (AttributeError msg), set_search_field_value (Some v) self).
Proof.
  intros Hin Ho Hv Hl.
  unfold on_change, filter_options. cbn [search_field_value set_search_field_value].
  apply String.eqb_neq in Hv. rewrite Hv.
  apply String.eqb_neq in Hl. rewrite Hl.
  change (all_options (set_search_field_value (Some v) self)) with (all_options self).
  destruct (matching_options_raises (lower v) (all_options self) o Hin Ho) as [msg ->].
  eauto.
Qed.

End SelectorFacts.

Section SelectorInit.
Import Components.

Lemma make_options_ok (models : list (gmap string json)) :
  forallb has_id_and_name models = true ->
  make_options models =
    inr (map (fun m => {| key := field m "id"; text := field m "name" |}) models).
Proof.
  induction models as [|m models IH]; intros H; [reflexivity|].
  simpl in H. apply andb_prop in H. destruct H as [Hm Hrest].
  cbn [make_options map]. rewrite (IH Hrest).
  unfold has_id_and_name in Hm. unfold subscript, field.
  destruct (m !! "id"); [|discriminate].
  destruct (m !! "name"); [|discriminate]. reflexivity.
Qed.

Lemma str_id_and_name_has (models : list (gmap string json)) :
  forallb str_id_and_name models = true -> forallb has_id_and_name models = true.
Proof.
  rewrite !forallb_forall. intros H m Hm. specialize (H m Hm).
  unfold str_id_and_name in H. unfold has_id_and_name.
  destruct (m !! "id") as [[]|]; try discriminate H.
  destruct (m !! "name") as [[]|]; try discriminate H. reflexivity.
Qed.

(** Built from models whose ["id"] and ["name"] are strings, the
    selector lists one option per model, in the order of the models,
    with the id as key and the name as text, keeps the same list for
    searching, and selects the first model's id ([None] when there is no
    model). *)
Theorem a_new_selector_lists_every_model (models : list (gmap string json)) :
  forallb str_id_and_name models = true ->
  exists self,
    __init__ models = inr self
    /\ options self =
         map (fun m => {| key := field m "id"; text := field m "name" |}) models
    /\ all_options self = options self
    /\ all_str (all_options self) = true
    /\ value self = match models with
                    | [] => JNull
                    | m :: _ => field m "id"
                    end.
Proof.
  intros Hstr. pose proof (str_id_and_name_has models Hstr) as H.
  assert (Hall : all_str (map (fun m => {| key := field m "id"; text := field m "name" |})
                             models) = true).
  { unfold all_str. rewrite forallb_forall. intros o Ho.
    apply in_map_iff in Ho. destruct Ho as (m & <- & Hm).
    rewrite forallb_forall in Hstr. specialize (Hstr m Hm).
    unfold str_id_and_name in Hstr. unfold field. cbn [key text].
    destruct (m !! "id") as [[]|]; try discriminate Hstr.
    destruct (m !! "name") as [[]|]; try discriminate Hstr. reflexivity. }
  unfold __init__. rewrite (make_options_ok models H).
  destruct models as [|m models].
  - eexists. repeat split.
  - simpl in H. apply andb_prop in H. destruct H as [Hm _].
    unfold has_id_and_name in Hm. unfold subscript, field.
    destruct (m !! "id") eqn:Hid; [|discriminate].
    eexists. split; [reflexivity|]. cbn [options all_options value].
    split; [reflexivity|]. split; [reflexivity|]. split; [exact Hall|].
    reflexivity.
Qed.

Lemma make_options_key_error (models : list (gmap string json)) :
  forallb has_id_and_name models = false ->
  exists k, make_options models = inl (KeyError k) /\ (k = "id" \/ k = "name").
Proof.
  induction models as [|m models IH]; intros H; [discriminate|].
  simpl in H. cbn [make_options]. unfold subscript.
  unfold has_id_and_name in H.
  destruct (m !! "id"); [|eauto].
  destruct (m !! "name"); [|eauto].
  cbn [andb] in H. destruct (IH H) as (k & -> & Hk). eauto.
Qed.

(** A model without ["id"] or without ["name"] anywhere in the list
    makes the constructor raise [KeyError] for that key. *)
Theorem a_model_without_id_or_name_raises (models : list (gmap string json)) :
  forallb has_id_and_name models = false ->
  exists k, __init__ models = inl (KeyError k) /\ (k = "id" \/ k = "name").
Proof.
  intros H. unfold __init__.
  destruct (make_options_key_error models H) as (k & -> & Hk). eauto.
Qed.

End SelectorInit.

Lemma search_shows_the_matching_options_witness :
  all_str (Components.all_options sample_selector) = true
  /\ fst (Components.on_change ascii_lower (Some "LLaMa") sample_selector) = Ok tt
  /\ Components.options (snd (Components.on_change ascii_lower (Some "LLaMa") sample_selector)) =
       List.filter (shown ascii_lower (ascii_lower "LLaMa"))
         (Components.all_options sample_selector)
  /\ Components.options (snd (Components.on_change ascii_lower (Some "LLaMa") sample_selector))
       `sublist_of` Components.all_options sample_selector
  /\ Components.all_options
       (snd (Components.on_change ascii_lower (Some "LLaMa") sample_selector)) =
       Components.all_options sample_selector
  /\ Components.value (snd (Components.on_change ascii_lower (Some "LLaMa") sample_selector)) =
       Components.value sample_selector
  /\ Components.page_updates
       (snd (Components.on_change ascii_lower (Some "LLaMa") sample_selector)) =
       S (Components.page_updates sample_selector).
Proof.
  split; [reflexivity|].
  apply (search_shows_the_matching_options ascii_lower sample_selector "LLaMa").
  - reflexivity.
  - discriminate.
  - vm_compute. discriminate.
Defined.

Lemma a_longer_search_shows_no_more_witness :
  (all_str (Components.all_options sample_selector) = true
   /\ Components.contains (ascii_lower "a") (ascii_lower "Lla") = true)
  /\ Components.options (snd (Components.on_change ascii_lower (Some "Lla") sample_selector))
       `sublist_of`
     Components.options (snd (Components.on_change ascii_lower (Some "a") sample_selector)).
Proof.
  split; [split; reflexivity|].
  apply (a_longer_search_shows_no_more ascii_lower sample_selector "a" "Lla").
  - reflexivity.
  - discriminate.
  - discriminate.
  - reflexivity.
Defined.

Lemma search_raises_on_an_option_without_text_witness :
  (In {| Components.key := JStr "x/y"; Components.text := JNull |}
      (Components.all_options nameless_selector)
   /\ Components.text {| Components.key := JStr "x/y"; Components.text := JNull |} = JNull)
  /\ exists msg,
       Components.on_change ascii_lower (Some "gpt") nameless_selector =
         (Raise (AttributeError msg),
          Components.set_search_field_value (Some "gpt") nameless_selector).
Proof.
  split; [split; [right; left; reflexivity | reflexivity]|].
  apply (search_raises_on_an_option_without_text ascii_lower nameless_selector
           {| Components.key := JStr "x/y"; Components.text := JNull |} "gpt").
  - right; left; reflexivity.
  - reflexivity.
  - discriminate.
  - vm_compute. discriminate.
Defined.

Lemma a_new_selector_lists_every_model_witness :
  forallb str_id_and_name sample_models = true
  /\ exists self,
       Components.__init__ sample_models = inr self
       /\ Components.options self =
            map (fun m => {| Components.key := field m "id";
                             Components.text := field m "name" |}) sample_models
       /\ Components.all_options self = Components.options self
       /\ all_str (Components.all_options self) = true
       /\ Components.value self = field (model (JStr "openai/gpt-4o") (JStr "GPT-4o")) "id".
Proof.
  split; [vm_compute; reflexivity|].
  apply (a_new_selector_lists_every_model sample_models).
  vm_compute; reflexivity.
Defined.

Lemma a_model_without_id_or_name_raises_witness :
  forallb has_id_and_name (sample_models ++ [<["id" := JStr "x/y"]> ∅]) = false
  /\ exists k,
       Components.__init__ (sample_models ++ [<["id" := JStr "x/y"]> ∅]) =
         inl (Components.KeyError k)
       /\ (k = "id" \/ k = "name").
Proof.
  split; [vm_compute; reflexivity|].
  apply (a_model_without_id_or_name_raises (sample_models ++ [<["id" := JStr "x/y"]> ∅])).
  vm_compute; reflexivity.
Defined.

(** ** Starting the application: which entry point is called *)

Section LaunchFacts.
Import Boot.

Lemma host_with_same (h : host) :
  host_with h (controls (pg h)) (updates (pg h)) (called (pg h)) = h.
Proof. destruct h as [[cs u ps ss cl] en w mp]. reflexivity. Qed.

Lemma page_handler_entry_point (m : module) (name : string) (a : attribute) :
  In (name, a) m -> page_handler (name, a) = true -> entry_point m name = true.
Proof.
  intros Hin Hp. unfold entry_point. apply orb_true_iff. right.
  apply existsb_exists. exists (name, a). split; [exact Hin|].
  cbn [fst]. now rewrite String.eqb_refl, Hp.
Qed.

Lemma try_chat_app_outcome (m : module) (h : host) :
  step_outcome m h (try_chat_app m h).
Proof.
  unfold try_chat_app.
  destruct (lookup_attr "ChatApp" m) as [cls|] eqn:Hcls; [|left; reflexivity].
  unfold try_except, bind, lift.
  destruct (construct cls) as [[f|]|e] eqn:Hmk.
  - destruct (is_callable f) eqn:Hc; [|left; reflexivity].
    destruct (signature f) as [n|e] eqn:Hsig.
    + destruct (n =? 1)%nat eqn:Hn; [|left; reflexivity].
      apply Nat.eqb_eq in Hn. subst n.
      assert (Hep : entry_point m "ChatApp.main" = true).
      { unfold entry_point, chat_app_main, one_parameter.
        now rewrite Hcls, Hmk, Hc, Hsig. }
      unfold call_with_page, bind, lift, modify_page.
      destruct (call f) as [[]|e].
      * right; left. exists "ChatApp.main". split; [exact Hep | reflexivity].
      * right; right; right; left.
        exists (Text (msg_chat_app_failed e)), "ChatApp.main".
        split; [exact Hep | reflexivity].
    + right; right; left. exists (Text (msg_chat_app_failed e)). reflexivity.
  - left. reflexivity.
  - right; right; left. exists (Text (msg_chat_app_failed e)). reflexivity.
Qed.

Lemma try_funcs_outcome (m : module) (fs : list (string * attribute)) (h : host) :
  (forall t, In t fs ->
     In t m /\ is_callable (fn (snd t)) = true
     /\ String.prefix "_" (fst t) = false) ->
  step_outcome m h (try_funcs fs h).
Proof.
  induction fs as [|[name a] fs IH]; intros Hfs; [left; reflexivity|].
  cbn [try_funcs].
  assert (Hrest : step_outcome m h (try_funcs fs h)).
  { apply IH. intros t Ht. apply Hfs. now right. }
  destruct (Hfs (name, a) (or_introl eq_refl)) as (Hin & Hc & Hpub).
  cbn [fst snd] in Hc, Hpub.
  destruct (signature (fn a)) as [n|e] eqn:Hsig.
  - destruct (n =? 1)%nat eqn:Hn; [|exact Hrest].
    apply Nat.eqb_eq in Hn. subst n.
    assert (Hep : entry_point m name = true).
    { apply (page_handler_entry_point m name a Hin).
      unfold page_handler, one_parameter. cbn [fst snd].
      now rewrite Hpub, Hc, Hsig. }
    unfold try_except, call_with_page, bind, lift, modify_page.
    destruct (call (fn a)) as [[]|e].
    + right; left. exists name. split; [exact Hep | reflexivity].
    + right; right; right; left. exists (Text (msg_call_failed name e)), name.
      split; [exact Hep | reflexivity].
  - destruct (is_TypeError_or_ValueError e) eqn:He; [exact Hrest|].
    right; right; right; right. exists e. split; [exact He | reflexivity].
Qed.

Lemma explain_main_outcome (m : module) (h : host) :
  step_outcome m h (explain_main m h).
Proof.
  unfold explain_main.
  destruct (lookup_attr "main" m) as [a|]; [|left; reflexivity].
  destruct (is_callable (fn a)); [|left; reflexivity].
  unfold try_except, bind, lift.
  destruct (signature (fn a)) as [n|e].
  - destruct (n =? 0)%nat; [|left; reflexivity].
    right; right; left. exists main_without_parameters. reflexivity.
  - right; right; left. exists (Text (msg_signature_failed e)). reflexivity.
Qed.

Lemma In_insert_sorted (t u : string * attribute) (l : list (string * attribute)) :
  In u (insert_sorted t l) <-> u = t \/ In u l.
Proof.
  induction l as [|x l IH]; cbn [insert_sorted].
  - cbn [In]. intuition congruence.
  - destruct (key_leb (fst t) (fst x)); cbn [In]; [intuition congruence|].
    rewrite IH. intuition congruence.
Qed.

Lemma In_sorted (u : string * attribute) (l : list (string * attribute)) :
  In u (sorted l) <-> In u l.
Proof.
  induction l as [|x l IH]; [reflexivity|].
  unfold sorted. cbn [fold_right]. fold (sorted l).
  rewrite In_insert_sorted, IH. cbn [In]. intuition congruence.
Qed.

Lemma sorted_funcs_public (m : module) (t : string * attribute) :
  In t (sorted_funcs m) ->
  In t m /\ is_callable (fn (snd t)) = true /\ String.prefix "_" (fst t) = false.
Proof.
  unfold sorted_funcs, public_funcs, callable_attrs.
  rewrite In_sorted, !filter_In.
  intros [[Hin Hc] Hp]. apply negb_true_iff in Hp. auto.
Qed.

Lemma step_then (m : module) (h : host) (step : M host bool) (k : M host unit) :
  step_outcome m h (step h) ->
  ends tt m h (k h) ->
  ends tt m h ((done <- step ;; if done then ret tt else k) h).
Proof.
  intros Hs Hk. unfold bind.
  destruct Hs as [Hs|[(name & Hep & Hs)|[(c & Hs)|[(c & name & Hep & Hs)|(e & He & Hs)]]]];
    rewrite Hs.
  - exact Hk.
  - left. exists name. split; [exact Hep | reflexivity].
  - right; left. exists c. reflexivity.
  - right; right; left. exists c, name. split; [exact Hep | reflexivity].
  - right; right; right. exists e. split; [exact He | reflexivity].
Qed.

(** The ways [launch_legacy_ui] can end. *)
Lemma launch_cases (h : host) :
  (exists e,
      main_py h = Raise e
      /\ launch_legacy_ui h =
           (Ok tt, host_with h [Text (msg_import_failed e)] (S (updates (pg h)))
                     (called (pg h))))
  \/ (exists m, main_py h = Ok m /\ ends tt m (cleaned h) (launch_legacy_ui h)).
Proof.
  destruct h as [[cs u ps ss cl] en w [m|e]].
  2:{ left. exists e. split; reflexivity. }
  right. exists m. split; [reflexivity|].
  set (h := {| pg := {| controls := cs; updates := u; props := ps; session := ss;
                        called := cl |};
               environ := en; os_world := w; main_py := Ok m |}).
  change (launch_legacy_ui h) with
    ((done <- try_chat_app m ;;
      if done then ret tt
      else
        done <- try_funcs (sorted_funcs m) ;;
        if done then ret tt
        else
          done <- explain_main m ;;
          if done then ret tt else show no_entry_point) (cleaned h)).
  apply step_then; [apply try_chat_app_outcome|].
  apply step_then; [apply try_funcs_outcome, sorted_funcs_public|].
  apply step_then; [apply explain_main_outcome|].
  right; left. exists no_entry_point. reflexivity.
Qed.

Lemma skipn_length_app {A} (l l' : list A) : skipn (length l) (l ++ l') = l'.
Proof. induction l as [|x l IH]; [reflexivity | exact IH]. Qed.

(** [launch_legacy_ui] ends in one of four ways: one entry point of
    [main.py] was called and returned, and the page is empty; one
    message is on the page and nothing was called; one entry point was
    called, it raised, and one message is on the page; or
    [inspect.signature] raised an exception other than [TypeError] and
    [ValueError], which leaves the function with the page empty and
    nothing called.  It never calls two entry points, never shows two
    messages, and touches neither the session nor the environment. *)
Theorem launch_calls_one_entry_point_or_shows_one_message (h : host) :
  (exists name,
      launch_legacy_ui h =
        (Ok tt, host_with h [] (updates (pg h)) (called (pg h) ++ [name])))
  \/ (exists c,
        launch_legacy_ui h =
          (Ok tt, host_with h [c] (S (updates (pg h))) (called (pg h))))
  \/ (exists c name,
        launch_legacy_ui h =
          (Ok tt, host_with h [c] (S (updates (pg h))) (called (pg h) ++ [name])))
  \/ (exists e,
        is_TypeError_or_ValueError e = false
        /\ launch_legacy_ui h =
             (Raise e, host_with h [] (updates (pg h)) (called (pg h)))).
Proof.
  destruct (launch_cases h) as [(e & _ & Hr)|(m & _ & Hr)].
  - right; left. eauto.
  - destruct Hr as [(name & _ & Hr)|[(c & Hr)|[(c & name & _ & Hr)|(e & He & Hr)]]].
    + left. exists name. exact Hr.
    + right; left. exists c. exact Hr.
    + right; right; left. exists c, name. exact Hr.
    + right; right; right. exists e. split; [exact He | exact Hr].
Qed.

(** Whatever [launch_legacy_ui] calls is the method [main] of a
    [ChatApp] object or a public callable of the module, and in both
    cases one that is callable and whose signature has exactly one
    parameter: a [main()] without parameters, a private name or an
    object that is not callable is never called. *)
Theorem launch_calls_only_one_parameter_callables (h : host) (name : string) :
  In name (calls_made h) ->
  exists m, main_py h = Ok m /\ entry_point m name = true.
Proof.
  intros Hin. unfold calls_made in Hin.
  destruct (launch_cases h) as [(e & _ & Hr)|(m & Hm & Hr)].
  - rewrite Hr in Hin. cbn [snd pg host_with called] in Hin.
    rewrite <- (app_nil_r (called (pg h))) in Hin at 2.
    rewrite skipn_length_app in Hin. destruct Hin.
  - exists m. split; [exact Hm|].
    destruct Hr as [(n & Hep & Hr)|[(c & Hr)|[(c & n & Hep & Hr)|(e & He & Hr)]]];
      rewrite Hr in Hin; cbn [snd pg host_with called cleaned] in Hin.
    + rewrite skipn_length_app in Hin. destruct Hin as [<-|[]]. exact Hep.
    + rewrite <- (app_nil_r (called (pg h))) in Hin at 2.
      rewrite skipn_length_app in Hin. destruct Hin.
    + rewrite skipn_length_app in Hin. destruct Hin as [<-|[]]. exact Hep.
    + rewrite <- (app_nil_r (called (pg h))) in Hin at 2.
      rewrite skipn_length_app in Hin. destruct Hin.
Qed.

End LaunchFacts.
Section OrderFacts.
Import Boot.

Lemma leb_trans (a b c : string) :
  String.leb a b = true -> String.leb b c = true -> String.leb a c = true.
Proof.
  unfold String.leb. revert b c.
  induction a as [|x a IH]; intros [|y b] [|z c]; cbn [String.compare];
    try reflexivity; try discriminate.
  unfold Ascii.compare.
  destruct (N.compare_spec (N_of_ascii x) (N_of_ascii y)) as [Hxy|Hxy|Hxy];
    try discriminate;
    destruct (N.compare_spec (N_of_ascii y) (N_of_ascii z)) as [Hyz|Hyz|Hyz];
    try discriminate;
    destruct (N.compare_spec (N_of_ascii x) (N_of_ascii z)) as [Hxz|Hxz|Hxz];
    try reflexivity; try lia.
  apply IH.
Qed.

Lemma leb_refl (a : string) : String.leb a a = true.
Proof. destruct (String.leb_total a a); assumption. Qed.

Lemma key_leb_refl (a : string) : key_leb a a = true.
Proof. unfold key_leb. destruct (preferred a); apply leb_refl. Qed.

Lemma key_leb_total (a b : string) : key_leb a b = false -> key_leb b a = true.
Proof.
  unfold key_leb. destruct (preferred a), (preferred b); try discriminate; try reflexivity;
    intros H; destruct (String.leb_total a b) as [H'|H']; congruence.
Qed.

Lemma key_leb_trans (a b c : string) :
  key_leb a b = true -> key_leb b c = true -> key_leb a c = true.
Proof.
  unfold key_leb. destruct (preferred a), (preferred b), (preferred c);
    try discriminate; try reflexivity; apply leb_trans.
Qed.

Lemma ordered_insert (t : string * attribute) (l : list (string * attribute)) :
  ordered l -> ordered (insert_sorted t l).
Proof.
  induction l as [|u l IH]; intros Hl; cbn [insert_sorted].
  - split; constructor.
  - destruct Hl as [Hu Hl].
    destruct (key_leb (fst t) (fst u)) eqn:Htu.
    + split; [|split; assumption].
      constructor; [exact Htu|].
      eapply Forall_impl; [exact Hu|].
      intros y Hy. cbv beta in Hy. exact (key_leb_trans _ _ _ Htu Hy).
    + split; [|exact (IH Hl)].
      apply List.Forall_forall. intros y Hy.
      apply In_insert_sorted in Hy. destruct Hy as [->|Hy].
      * exact (key_leb_total _ _ Htu).
      * rewrite List.Forall_forall in Hu. exact (Hu y Hy).
Qed.

Lemma ordered_sorted (l : list (string * attribute)) : ordered (sorted l).
Proof.
  induction l as [|t l IH]; [exact I|].
  unfold sorted. cbn [fold_right]. apply ordered_insert. exact IH.
Qed.

Lemma find_ordered_least (p : string * attribute -> bool)
    (l : list (string * attribute)) (g t : string * attribute) :
  ordered l -> find p l = Some g -> In t l -> p t = true ->
  key_leb (fst g) (fst t) = true.
Proof.
  induction l as [|x l IH]; intros Hl Hg Ht Hp; [destruct Ht|].
  destruct Hl as [Hx Hl]. cbn [find] in Hg.
  destruct (p x) eqn:Hpx.
  - injection Hg as <-. destruct Ht as [<-|Ht]; [apply key_leb_refl|].
    rewrite List.Forall_forall in Hx. exact (Hx t Ht).
  - destruct Ht as [<-|Ht]; [congruence|]. exact (IH Hl Hg Ht Hp).
Qed.

Lemma try_funcs_find (fs : list (string * attribute)) (h : host) :
  forallb inspectable fs = true ->
  try_funcs fs h =
    match find takes_one fs with
    | None => (Ok false, h)
    | Some (g, b) =>
        try_except (call_with_page g (fn b) ;; ret true)
          (fun e => Some (show (Text (msg_call_failed g e)) ;; ret true)) h
    end.
Proof.
  induction fs as [|[name a] fs IH]; intros Hall; [reflexivity|].
  cbn [forallb] in Hall. apply andb_prop in Hall. destruct Hall as [Ha Hall].
  cbn [try_funcs find]. unfold takes_one, inspectable in *. cbn [snd] in *.
  destruct (signature (fn a)) as [n|e].
  - destruct n as [|[|n]]; cbn [Nat.eqb]; [exact (IH Hall) | reflexivity | exact (IH Hall)].
  - rewrite Ha. exact (IH Hall).
Qed.

(** Without a [ChatApp], and when [inspect.signature] raises nothing
    but [TypeError] or [ValueError] on the public callables, a public
    callable with one parameter in the module is enough for one to be
    called, and the one called comes first in the order of
    [sorted_funcs]: no callable with one parameter has a smaller key,
    so a preferred name wins over every other name, and among names of
    the same kind the smaller string wins. *)
Theorem preferred_names_are_called_first
    (h : host) (m : module) (name : string) (a : attribute) :
  main_py h = Ok m ->
  lookup_attr "ChatApp" m = None ->
  forallb inspectable (public_funcs m) = true ->
  In (name, a) m -> page_handler (name, a) = true ->
  exists g,
    calls_made h = [g]
    /\ entry_point m g = true
    /\ key_leb g name = true
    /\ (preferred name = true -> preferred g = true).
Proof.
  intros Hm Hcls Hall Hin Hp.
  assert (Hsf : In (name, a) (sorted_funcs m)).
  { unfold sorted_funcs, public_funcs, callable_attrs.
    rewrite In_sorted, !filter_In. cbn [fst snd].
    unfold page_handler, one_parameter in Hp. cbn [fst snd] in Hp.
    apply andb_prop in Hp. destruct Hp as [Hpub Hp].
    apply andb_prop in Hp. destruct Hp as [Hc _]. auto. }
  assert (Hone : takes_one (name, a) = true).
  { unfold page_handler, one_parameter in Hp. unfold takes_one. cbn [fst snd] in *.
    apply andb_prop in Hp. destruct Hp as [_ Hp].
    apply andb_prop in Hp. destruct Hp as [_ Hp]. exact Hp. }
  assert (Hall' : forallb inspectable (sorted_funcs m) = true).
  { apply forallb_forall. intros t Ht. unfold sorted_funcs in Ht.
    rewrite In_sorted in Ht. rewrite forallb_forall in Hall. exact (Hall t Ht). }
  destruct (find takes_one (sorted_funcs m)) as [[g b]|] eqn:Hfind.
  2:{ exfalso. pose proof (find_none _ _ Hfind _ Hsf) as Hn. congruence. }
  destruct (find_some _ _ Hfind) as [Hgin Hgone].
  destruct (sorted_funcs_public m (g, b) Hgin) as (Hgm & Hgc & Hgpub).
  cbn [fst snd] in Hgc, Hgpub.
  assert (Hle : key_leb g name = true).
  { exact (find_ordered_least takes_one (sorted_funcs m) (g, b) (name, a)
             (ordered_sorted _) Hfind Hsf Hone). }
  exists g. split; [|split; [|split; [exact Hle|]]].
  - unfold calls_made.
    destruct h as [[cs u ps ss cl] en w mp]. cbn [main_py] in Hm. subst mp.
    unfold launch_legacy_ui, bind at 1. unfold modify_page at 1.
    cbn [main_py pg called]. unfold bind at 1. unfold try_chat_app. rewrite Hcls.
    unfold ret at 1. cbv iota beta. unfold bind at 1.
    rewrite (try_funcs_find _ _ Hall'), Hfind.
    unfold try_except, call_with_page, bind, lift, modify_page, ret, show.
    destruct (call (fn b)) as [[]|e];
      cbn [snd pg called record_call page_add page_update page_clean];
      apply skipn_length_app.
  - apply (page_handler_entry_point m g b Hgm).
    unfold page_handler, one_parameter. cbn [fst snd].
    unfold takes_one in Hgone. cbn [snd] in Hgone.
    now rewrite Hgpub, Hgc, Hgone.
  - unfold key_leb in Hle. intros Hn. rewrite Hn in Hle.
    destruct (preferred g); [reflexivity | discriminate].
Qed.

(** A [ChatApp] whose objects have a callable [main] with one parameter
    comes before everything else: [ChatApp().main(page)] is the one call
    made, whatever else the module defines, and when it raises, the
    error is shown and nothing else is tried. *)
Theorem chat_app_main_is_tried_first (h : host) (m : module) (f : callee) :
  main_py h = Ok m ->
  chat_app_main m = Some f ->
  one_parameter f = true ->
  launch_legacy_ui h =
    match call f with
    | Ok _ =>
        (Ok tt, host_with h [] (updates (pg h)) (called (pg h) ++ ["ChatApp.main"]))
    | Raise e =>
        (Ok tt, host_with h [Text (msg_chat_app_failed e)] (S (updates (pg h)))
                  (called (pg h) ++ ["ChatApp.main"]))
    end.
Proof.
  intros Hm Hf Hone.
  destruct h as [[cs u ps ss cl] en w mp]. cbn [main_py] in Hm. subst mp.
  unfold chat_app_main in Hf.
  destruct (lookup_attr "ChatApp" m) as [cls|] eqn:Hcls; [|discriminate].
  destruct (construct cls) as [[f'|]|e] eqn:Hmk; try discriminate.
  injection Hf as ->.
  unfold one_parameter in Hone. apply andb_prop in Hone. destruct Hone as [Hc Hsig].
  destruct (signature f) as [[|[|n]]|e] eqn:Hs; try discriminate.
  unfold launch_legacy_ui, bind at 1. unfold modify_page at 1.
  cbn [main_py pg]. unfold bind at 1. unfold try_chat_app. rewrite Hcls.
  unfold try_except, bind, lift. rewrite Hmk, Hc, Hs. cbn [Nat.eqb].
  unfold call_with_page, bind, lift, modify_page, ret, show.
  destruct (call f) as [[]|e]; reflexivity.
Qed.

End OrderFacts.

Section BootFacts.
Import Boot.



End BootFacts.

Lemma launch_calls_only_one_parameter_callables_witness :
  In "ChatApp.main" (calls_made (host_of (Ok sample_module)))
  /\ exists m,
       Boot.main_py (host_of (Ok sample_module)) = Ok m
       /\ entry_point m "ChatApp.main" = true.
Proof.
  split; [left; reflexivity|].
  apply (launch_calls_only_one_parameter_callables (host_of (Ok sample_module))
           "ChatApp.main").
  left; reflexivity.
Defined.

Lemma preferred_names_are_called_first_witness :
  (Boot.main_py (host_of (Ok module_without_class)) = Ok module_without_class
   /\ Boot.lookup_attr "ChatApp" module_without_class = None
   /\ forallb inspectable (Boot.public_funcs module_without_class) = true
   /\ In ("show", func 1) module_without_class
   /\ page_handler ("show", func 1) = true)
  /\ exists g,
       calls_made (host_of (Ok module_without_class)) = [g]
       /\ entry_point module_without_class g = true
       /\ Boot.key_leb g "show" = true
       /\ (Boot.preferred "show" = true -> Boot.preferred g = true).
Proof.
  split.
  - split; [reflexivity|]. split; [reflexivity|]. split; [reflexivity|].
    split; [|reflexivity]. do 4 right. left. reflexivity.
  - apply (preferred_names_are_called_first (host_of (Ok module_without_class))
             module_without_class "show" (func 1)).
    + reflexivity.
    + reflexivity.
    + reflexivity.
    + do 4 right. left. reflexivity.
    + reflexivity.
Defined.

Lemma chat_app_main_is_tried_first_witness :
  (Boot.main_py (host_of (Ok sample_module)) = Ok sample_module
   /\ chat_app_main sample_module = Some method_main
   /\ one_parameter method_main = true)
  /\ Boot.launch_legacy_ui (host_of (Ok sample_module)) =
       match Boot.call method_main with
       | Ok _ =>
           (Ok tt,
            host_with (host_of (Ok sample_module)) []
              (Boot.updates (Boot.pg (host_of (Ok sample_module))))
              (Boot.called (Boot.pg (host_of (Ok sample_module))) ++ ["ChatApp.main"]))
       | Raise e =>
           (Ok tt,
            host_with (host_of (Ok sample_module)) [Boot.Text (Boot.msg_chat_app_failed e)]
              (S (Boot.updates (Boot.pg (host_of (Ok sample_module)))))
              (Boot.called (Boot.pg (host_of (Ok sample_module))) ++ ["ChatApp.main"]))
       end.
Proof.
  split; [repeat split|].
  apply (chat_app_main_is_tried_first (host_of (Ok sample_module)) sample_module
           method_main); reflexivity.
Defined.

Section StartFacts.
Import Boot.

Lemma get_credentials_no_dict (w : world) (v : json) :
  file w = Holds v -> store_ok w = false ->
  Auth.get_credentials w = (Raise (no_attribute v "get"), after_read w).
Proof.
  intros Hf Hno. unfold store_ok in Hno.
  unfold Auth.get_credentials, bind. rewrite load_db_eq.
  rewrite Hf in Hno |- *. cbn [loaded] in Hno |- *.
  destruct v; try reflexivity. discriminate Hno.
Qed.

(** Over a store that [_load_db] reads as a dict, [boot] returns, adds
    the login card to the page as its one new control and updates the
    page once; the card starts in PIN_ENTRY when the store holds a key
    and in FIRST_RUN otherwise.  [boot] calls no entry point of
    [main.py] and writes neither the environment nor the session: the
    code of [main.py] can only start through [on_success]. *)
Theorem boot_shows_the_login_card (h : host) (d : gmap string json) :
  loaded (file (os_world h)) = JObj d ->
  exists c,
    fst (boot h) = Ok tt
    /\ controls (pg (snd (boot h))) = (controls (pg h) ++ [Container (LoginCard c)])%list
    /\ AuthGate.state_of c =
         (if truthy (field d "api_key") then AuthGate.PIN_ENTRY else AuthGate.FIRST_RUN)
    /\ updates (pg (snd (boot h))) = S (updates (pg h))
    /\ called (pg (snd (boot h))) = called (pg h)
    /\ environ (snd (boot h)) = environ h
    /\ session (pg (snd (boot h))) = session (pg h).
Proof.
  intros Hd.
  assert (Hb : exists c,
             boot h =
               (Ok tt,
                {| pg := page_update
                           (page_add (Container (LoginCard c))
                              (page_set "vertical_alignment" "CENTER"
                                 (page_set "horizontal_alignment" "CENTER"
                                    (page_set "theme_mode" "LIGHT" (pg h)))));
                   environ := environ h;
                   os_world := after_read (os_world h);
                   main_py := main_py h |})
             /\ AuthGate.state_of c =
                  (if truthy (field d "api_key")
                   then AuthGate.PIN_ENTRY else AuthGate.FIRST_RUN)).
  { unfold boot, bind, modify_page, in_world. cbn [pg environ os_world main_py].
    unfold AuthGate.make_login_card, bind.
    rewrite (get_credentials_eq (os_world h) d Hd). unfold ret.
    eexists. split; [reflexivity|].
    destruct (truthy (field d "api_key")); reflexivity. }
  destruct Hb as (c & -> & Hst). exists c. repeat split. exact Hst.
Qed.

(** A store file that holds JSON other than an object stops the
    application at every start: [boot] raises [AttributeError] before
    the login card is on the page, and leaves the file as it is, so
    the next start fails the same way.  [verify_pin] and
    [save_credentials] raise on such a file too and leave it as it is;
    of the store's operations only [clear_credentials] repairs it, and
    the button that calls it is on the card that cannot be built. *)
Theorem a_store_that_is_no_dict_blocks_every_start
    (h : host) (v : json) (api_key pin : string) :
  file (os_world h) = Holds v ->
  store_ok (os_world h) = false ->
  fst (boot h) = Raise (no_attribute v "get")
  /\ controls (pg (snd (boot h))) = controls (pg h)
  /\ file (os_world (snd (boot h))) = Holds v
  /\ Auth.verify_pin pin (os_world h) =
       (Raise (no_attribute v "get"), after_read (os_world h))
  /\ fst (Auth.save_credentials api_key pin (os_world h)) =
       Raise (no_attribute v "update")
  /\ file (snd (Auth.save_credentials api_key pin (os_world h))) = Holds v
  /\ store_ok (snd (Auth.clear_credentials (os_world h))) = true.
Proof.
  intros Hf Hno.
  assert (Hb : boot h =
                 (Raise (no_attribute v "get"),
                  {| pg := page_set "vertical_alignment" "CENTER"
                             (page_set "horizontal_alignment" "CENTER"
                                (page_set "theme_mode" "LIGHT" (pg h)));
                     environ := environ h;
                     os_world := after_read (os_world h);
                     main_py := main_py h |})).
  { unfold boot, bind, modify_page, in_world. cbn [pg environ os_world main_py].
    unfold AuthGate.make_login_card, bind.
    rewrite (get_credentials_no_dict (os_world h) v Hf Hno). reflexivity. }
  assert (Hs : Auth.save_credentials api_key pin (os_world h) =
                 (Raise (no_attribute v "update"),
                  after_read (advance 16 (os_world h)))).
  { unfold Auth.save_credentials, bind, Secrets.token_bytes.
    fold (fresh_salt (os_world h)). unfold lift at 1.
    rewrite hash_pin_encoded_salt.
    rewrite load_db_eq. cbn [file advance]. rewrite Hf. cbn [loaded].
    unfold store_ok in Hno. rewrite Hf in Hno. cbn [loaded] in Hno.
    unfold lift, py_update.
    destruct v; try reflexivity. discriminate Hno. }
  rewrite Hb, Hs. cbn [fst snd pg os_world controls page_set after_read set_file file advance].
  repeat split; try exact Hf.
  unfold Auth.verify_pin, bind.
  now rewrite (get_credentials_no_dict (os_world h) v Hf Hno).
Qed.

End StartFacts.

Lemma boot_shows_the_login_card_witness :
  loaded (file (Boot.os_world (host_of (Ok sample_module)))) = JObj ∅
  /\ exists c,
       fst (Boot.boot (host_of (Ok sample_module))) = Ok tt
       /\ Boot.controls (Boot.pg (snd (Boot.boot (host_of (Ok sample_module))))) =
            (Boot.controls (Boot.pg (host_of (Ok sample_module)))
               ++ [Boot.Container (Boot.LoginCard c)])%list
       /\ AuthGate.state_of c =
            (if truthy (field ∅ "api_key") then AuthGate.PIN_ENTRY else AuthGate.FIRST_RUN)
       /\ Boot.updates (Boot.pg (snd (Boot.boot (host_of (Ok sample_module))))) =
            S (Boot.updates (Boot.pg (host_of (Ok sample_module))))
       /\ Boot.called (Boot.pg (snd (Boot.boot (host_of (Ok sample_module))))) =
            Boot.called (Boot.pg (host_of (Ok sample_module)))
       /\ Boot.environ (snd (Boot.boot (host_of (Ok sample_module)))) =
            Boot.environ (host_of (Ok sample_module))
       /\ Boot.session (Boot.pg (snd (Boot.boot (host_of (Ok sample_module))))) =
            Boot.session (Boot.pg (host_of (Ok sample_module))).
Proof.
  split; [reflexivity|].
  apply (boot_shows_the_login_card (host_of (Ok sample_module)) ∅). reflexivity.
Defined.

Lemma a_store_that_is_no_dict_blocks_every_start_witness :
  (file (Boot.os_world (host_on (Holds (JArr [])))) = Holds (JArr [])
   /\ store_ok (Boot.os_world (host_on (Holds (JArr [])))) = false)
  /\ fst (Boot.boot (host_on (Holds (JArr [])))) = Raise (no_attribute (JArr []) "get")
  /\ Boot.controls (Boot.pg (snd (Boot.boot (host_on (Holds (JArr [])))))) =
       Boot.controls (Boot.pg (host_on (Holds (JArr []))))
  /\ file (Boot.os_world (snd (Boot.boot (host_on (Holds (JArr [])))))) = Holds (JArr [])
  /\ Auth.verify_pin "4821" (Boot.os_world (host_on (Holds (JArr [])))) =
       (Raise (no_attribute (JArr []) "get"),
        after_read (Boot.os_world (host_on (Holds (JArr [])))))
  /\ fst (Auth.save_credentials "sk-test" "4821" (Boot.os_world (host_on (Holds (JArr []))))) =
       Raise (no_attribute (JArr []) "update")
  /\ file (snd (Auth.save_credentials "sk-test" "4821"
                  (Boot.os_world (host_on (Holds (JArr [])))))) = Holds (JArr [])
  /\ store_ok (snd (Auth.clear_credentials (Boot.os_world (host_on (Holds (JArr [])))))) =
       true.
Proof.
  split; [split; reflexivity|].
  apply (a_store_that_is_no_dict_blocks_every_start (host_on (Holds (JArr [])))
           (JArr []) "sk-test" "4821"); reflexivity.
Defined.
